(** * Excel comparison tool ([app.py]): a shallow embedding and its properties

    The program reads two workbooks, normalises their column names, checks
    that both carry the columns ['awb number'] and ['weight'], outer-merges
    them on ['awb number'], adds the column ['weight_diff'], splits the merged
    frame on the merge indicator and writes the two parts to two fixed paths
    under the processed folder.  A second route serves files from that folder.

    Conventions of the embedding.
    - Text is ASCII ([string]); [str.strip] and [str.lower] are modelled on
      ASCII characters.
    - A numeric cell is an IEEE binary64 number ([spec_float], the executable
      specification of the Standard Library, with [prec = 53] and
      [emax = 1024]); pandas reads an empty cell as NaN, so the empty cell is
      [CNum S754_nan].
    - The file system is a finite map from resolved POSIX paths to files;
      relative paths are resolved against one working directory, which is
      also the root of the Flask application.  Of the failures of the
      operating system, a missing file on reading and a path that cannot be
      written are modelled.  The HTML of the two pages is not modelled: the
      result page is stood for by the two frames whose tables it shows.
    - pandas and Flask are libraries outside the repository; their functions
      used by [app.py] are modelled from their documented behaviour.  An
      outer merge lists its rows key by key, the rows of one key left row
      by left row; the order of the keys depends on the version of pandas
      (sorted since 2.2, in the order of their first appearance before).
      The embedding lists the keys sorted.  The general statements below do
      not depend on that choice: they compare frames by membership or up
      to permutation, and another order of the keys only permutes the rows
      ([outer_join_key_order]); on the keys of the scenarios the orders
      agree.
    - [read_excel] hands over a whole number as a Python [int], any other
      number as a [float] and a text as a [str]; the kind of a column, on
      which [pd.merge] decides whether two key columns can be merged, is
      read off its cells. *)

From Stdlib Require Import ZArith String Ascii List.
From Stdlib Require Import Floats.SpecFloat.
From stdpp Require Import base decidable option list gmap strings fin_maps.

Local Open Scope string_scope.
Local Open Scope list_scope.

(** ** Python strings *)

Module Str.

(** [str.isspace] on an ASCII character: TAB..CR, FS..US and the space. *)
Definition isspace (c : ascii) : bool :=
  let n := nat_of_ascii c in
  ((9 <=? n)%nat && (n <=? 13)%nat) || ((28 <=? n)%nat && (n <=? 32)%nat).

Fixpoint lstrip (s : string) : string :=
  match s with
  | String c s' => if isspace c then lstrip s' else s
  | EmptyString => EmptyString
  end.

Definition rstrip (s : string) : string := String.rev (lstrip (String.rev s)).

(** [s.strip()] *)
Definition strip (s : string) : string := rstrip (lstrip s).

Definition lower_char (c : ascii) : ascii :=
  let n := nat_of_ascii c in
  if (65 <=? n)%nat && (n <=? 90)%nat then ascii_of_nat (n + 32) else c.

(** [s.lower()] *)
Fixpoint lower (s : string) : string :=
  match s with
  | String c s' => String (lower_char c) (lower s')
  | EmptyString => EmptyString
  end.

(** [s.startswith(p)] and [s.endswith(p)] *)
Definition startswith (s p : string) : bool := String.prefix p s.
Definition endswith (s p : string) : bool :=
  String.prefix (String.rev p) (String.rev s).

(** [s.split(sep)] for a one-character separator. *)
Fixpoint split_go (sep : ascii) (cur : string) (s : string) : list string :=
  match s with
  | EmptyString => [String.rev cur]
  | String c s' =>
      if Ascii.eqb c sep then String.rev cur :: split_go sep EmptyString s'
      else split_go sep (String c cur) s'
  end.
Definition split (sep : ascii) (s : string) : list string :=
  split_go sep EmptyString s.

(** [sep.join(l)] *)
Fixpoint join (sep : string) (l : list string) : string :=
  match l with
  | [] => ""
  | [x] => x
  | x :: l' => x ++ sep ++ join sep l'
  end.

End Str.

(** ** Paths and the file system *)

Module OsPath.

(** [os.path.join(a, b)] of [posixpath]. *)
Definition join (a b : string) : string :=
  if Str.startswith b "/" then b
  else if String.eqb a "" || Str.endswith a "/" then a ++ b
  else a ++ "/" ++ b.

(** Lexical resolution of a path by the operating system (no symbolic
    links): empty and [.] components are dropped, [..] removes the
    component before it.  [stack] holds the resolved components, last
    one first. *)
Fixpoint resolve_go (absolute : bool) (stack : list string) (comps : list string)
  : list string :=
  match comps with
  | [] => rev stack
  | c :: comps' =>
      if String.eqb c "" || String.eqb c "." then resolve_go absolute stack comps'
      else if String.eqb c ".." then
        match stack with
        | top :: stack' =>
            if String.eqb top ".." then resolve_go absolute (c :: stack) comps'
            else resolve_go absolute stack' comps'
        | [] =>
            if absolute then resolve_go absolute [] comps'
            else resolve_go absolute [c] comps'
        end
      else resolve_go absolute (c :: stack) comps'
  end.

Definition resolve (path : string) : string :=
  let absolute := Str.startswith path "/" in
  (if absolute then "/" else "")
    ++ Str.join "/" (resolve_go absolute [] (Str.split "/" path)).

End OsPath.

(** ** pandas: cells and frames *)

Definition float64_sub : spec_float → spec_float → spec_float := SFsub 53 1024.
Definition float64_of_Z (z : Z) : spec_float := binary_normalize 53 1024 z 0 false.

(** A cell of a sheet: a number (NaN when the cell is empty) or a text. *)
Inductive cell : Type :=
  | CNum (x : spec_float)
  | CText (s : string).

Definition NaN : cell := CNum S754_nan.

(** [pd.isna] on a cell. *)
Definition isna (c : cell) : bool :=
  match c with
  | CNum S754_nan => true
  | _ => false
  end.

#[global] Instance spec_float_eq_dec : EqDecision spec_float.
Proof. solve_decision. Defined.
#[global] Instance cell_eq_dec : EqDecision cell.
Proof. solve_decision. Defined.

(** A [DataFrame]: the column labels and the rows, each row holding one cell
    per column. *)
Record DataFrame : Type := mkDataFrame {
  columns : list string;
  rows : list (list cell)
}.

#[global] Instance DataFrame_eq_dec : EqDecision DataFrame.
Proof. solve_decision. Defined.

(** ** Exceptions, the world and the monad of the program *)

(** Python exceptions that the program raises or meets.  [ValueError] carries
    its message ([str(e)]); for exceptions raised inside a library the text
    is indicative only.  [HTTPNotFound] is [werkzeug.exceptions.NotFound],
    the exception that Flask answers with status 404. *)
Inductive exn : Type :=
  | ValueError (msg : string)
  | TypeError (msg : string)
  | OSError (msg : string)
  | HTTPNotFound.

Definition exn_str (e : exn) : string :=
  match e with
  | ValueError m | TypeError m | OSError m => m
  | HTTPNotFound => "404 Not Found"
  end.

Inductive file : Type :=
  | Workbook (df : DataFrame)
  | Blob (data : string).

(** The world: the files, by resolved path; the paths that cannot be
    written (a read-only file, a file another program holds open); and the
    lines printed so far. *)
Record world : Type := mkWorld {
  fs : gmap string file;
  readonly : gset string;
  stdout : list string
}.

Definition with_file (path : string) (f : file) (w : world) : world :=
  mkWorld (<[path := f]> (fs w)) (readonly w) (stdout w).

Definition with_line (line : string) (w : world) : world :=
  mkWorld (fs w) (readonly w) (stdout w ++ [line]).

Definition M (A : Type) : Type := world → (exn + A) * world.

#[global] Instance M_ret : MRet M := λ A x w, (inr x, w).
#[global] Instance M_bind : MBind M := λ A B f m w,
  match m w with
  | (inl e, w') => (inl e, w')
  | (inr a, w') => f a w'
  end.

Definition raise {A : Type} (e : exn) : M A := λ w, (inl e, w).

(** [try: body except Exception as e: handler e] *)
Definition try_except {A : Type} (body : M A) (handler : exn → M A) : M A :=
  λ w, match body w with
       | (inl e, w') => handler e w'
       | (inr a, w') => (inr a, w')
       end.

Definition print (line : string) : M unit :=
  λ w, (inr tt, with_line line w).

Definition read_file (path : string) : M file :=
  λ w, match fs w !! OsPath.resolve path with
       | Some f => (inr f, w)
       | None => (inl (OSError ("[Errno 2] No such file or directory: '" ++ path ++ "'")), w)
       end.

Definition write_file (path : string) (f : file) : M unit :=
  λ w, if decide (OsPath.resolve path ∈ readonly w)
       then (inl (OSError ("[Errno 13] Permission denied: '" ++ path ++ "'")), w)
       else (inr tt, with_file (OsPath.resolve path) f w).

(** [pd.read_excel(path)]: the first sheet of the workbook as a frame. *)
Definition read_excel (path : string) : M DataFrame :=
  f ← read_file path;
  match f with
  | Workbook df => mret df
  | Blob _ => raise (ValueError "Excel file format cannot be determined, you must specify an engine manually.")
  end.

(** [df.to_excel(path, index=False)] *)
Definition to_excel (df : DataFrame) (path : string) : M unit :=
  write_file path (Workbook df).

Module Pandas.

(** [df.columns = df.columns.str.strip().str.lower()] *)
Definition normalize_columns (df : DataFrame) : DataFrame :=
  mkDataFrame ((λ c, Str.lower (Str.strip c)) <$> columns df) (rows df).

(** [name in df.columns] *)
Definition has_column (name : string) (df : DataFrame) : bool :=
  bool_decide (name ∈ columns df).

(** Positions of the columns labelled [name], from position [i] on. *)
Fixpoint label_positions (i : nat) (name : string) (cols : list string) : list nat :=
  match cols with
  | [] => []
  | c :: cols' =>
      if decide (c = name) then i :: label_positions (S i) name cols'
      else label_positions (S i) name cols'
  end.

(** [df[names]]: for each requested label, in the order requested, every
    column that carries it.  (pandas raises for a label that no column
    carries; the program selects only after it has checked the labels.) *)
Definition select_columns (names : list string) (df : DataFrame) : DataFrame :=
  let picked :=
    n ← names; (λ i, (n, i)) <$> label_positions 0 n (columns df) in
  mkDataFrame (fst <$> picked)
              ((λ r, (λ p, nth (snd p) r NaN) <$> picked) <$> rows df).

(** The value on which [pd.merge] compares two key cells: equal numbers
    are one key whatever the sign of zero, NaN keys match each other, a
    number never equals a text. *)
Definition merge_key (c : cell) : cell :=
  match c with
  | CNum (S754_zero _) => CNum (S754_zero false)
  | _ => c
  end.

(** One row of a frame projected to the key and the value column. *)
Record Rec : Type := mkRec { awb : cell; weight : cell }.

(** Positions in [l], counted from [j], of the rows whose key is [k]. *)
Fixpoint key_positions (j : nat) (k : cell) (l : list Rec) : list nat :=
  match l with
  | [] => []
  | r :: l' =>
      if decide (merge_key (awb r) = merge_key k)
      then j :: key_positions (S j) k l'
      else key_positions (S j) k l'
  end.

(** The two indexers of a join, row by row: the position taken in the
    left frame and the position taken in the right frame, [None] where
    that side has no partner. *)
Definition indexer : Type := option nat * option nat.

(** The order in which keys are sorted: numbers by value, before texts
    in the order of [str], before the empty key. *)
Definition key_leb (x y : cell) : bool :=
  match x, y with
  | CNum a, CNum b => isna y || (negb (isna x) && SFleb a b)
  | CNum _, CText _ => negb (isna x)
  | CText _, CNum _ => isna y
  | CText s, CText t => String.leb s t
  end.

Fixpoint insert_key (k : cell) (l : list cell) : list cell :=
  match l with
  | [] => [k]
  | x :: l' => if key_leb k x then k :: l else x :: insert_key k l'
  end.

Definition sort_keys (l : list cell) : list cell := foldr insert_key [] l.

(** The keys of a join: the keys of either frame, each once, sorted. *)
Definition join_keys (A B : list Rec) : list cell :=
  sort_keys (remove_dups ((λ r, merge_key (awb r)) <$> (A ++ B))).

(** The rows of one key: every row of the left frame with every row of
    the right frame, left row by left row, or the rows of the one frame
    that has the key. *)
Definition key_rows (k : cell) (A B : list Rec) : list indexer :=
  match key_positions 0 k A, key_positions 0 k B with
  | ls, [] => (λ i, (Some i, None)) <$> ls
  | [], rs => (λ j, (None, Some j)) <$> rs
  | ls, rs => i ← ls; (λ j, (Some i, Some j)) <$> rs
  end.

(** Full outer join: the rows of each key, key by key. *)
Definition outer_join (A B : list Rec) : list indexer :=
  k ← join_keys A B; key_rows k A B.

(** *** The kinds of two key columns *)

Definition is_text (c : cell) : bool :=
  match c with
  | CText _ => true
  | CNum _ => false
  end.

(** A whole number: the cell that [read_excel] hands over as an [int]. *)
Definition is_integer (c : cell) : bool :=
  match c with
  | CNum (S754_zero _) => true
  | CNum (S754_finite _ m e) => (0 <=? e)%Z || (Z.pos m mod 2 ^ (- e) =? 0)%Z
  | _ => false
  end.

(** A column that holds a text has dtype [object]; a column of numbers
    and empty cells has a numeric dtype. *)
Definition object_dtype (col : list cell) : bool := existsb is_text col.

(** An [object] column that [lib.infer_dtype] calls ['string'] or
    ['mixed'], not ['mixed-integer']: it holds no whole number. *)
Definition string_like (col : list cell) : bool :=
  object_dtype col && negb (existsb is_integer col).

(** The check of [_maybe_coerce_merge_keys] on the two key columns:
    a string-like column is not merged with a numeric column, unless one
    of the two frames has no row. *)
Definition incompatible_keys (lk rk : list cell) : bool :=
  (string_like lk && negb (object_dtype rk) && (0 <? length rk)%nat)
  || (string_like rk && negb (object_dtype lk) && (0 <? length lk)%nat).

Definition dtype_name (col : list cell) : string :=
  if object_dtype col then "object"
  else if forallb is_integer col then "int64"
  else "float64".

(** The exception of that check. *)
Definition incompatible_keys_error (lk rk : list cell) : exn :=
  ValueError ("You are trying to merge on " ++ dtype_name lk ++ " and "
                ++ dtype_name rk
                ++ " columns for key 'awb number'. If you wish to proceed you should use pd.concat").

(** The [_merge] column written by [indicator=True]. *)
Inductive indicator : Type := left_only | right_only | both.

#[global] Instance indicator_eq_dec : EqDecision indicator.
Proof. solve_decision. Defined.

(** A row of the merged frame. *)
Record MergedRow : Type := mkMergedRow {
  awb_number : cell;
  weight_file1 : cell;
  weight_file2 : cell;
  _merge : indicator
}.

Definition indicator_of (ix : indexer) : indicator :=
  match ix with
  | (Some _, Some _) => both
  | (Some _, None) => left_only
  | (None, _) => right_only
  end.

(** The merged row of one indexer pair: the key comes from the side that
    has the row, the value of a missing side is NaN. *)
Definition merged_row (A B : list Rec) (ix : indexer) : MergedRow :=
  let a := ix.1 ≫= (A !!.) in
  let b := ix.2 ≫= (B !!.) in
  {| awb_number := match a, b with
                   | Some ra, _ => awb ra
                   | None, Some rb => awb rb
                   | None, None => NaN
                   end;
     weight_file1 := from_option weight NaN a;
     weight_file2 := from_option weight NaN b;
     _merge := indicator_of ix |}.

(** The rows of a frame whose labels are exactly the key and the value
    column. *)
Definition records (df : DataFrame) : option (list Rec) :=
  if decide (columns df = ["awb number"; "weight"])
  then Some ((λ r, mkRec (nth 0 r NaN) (nth 1 r NaN)) <$> rows df)
  else None.

(** [pd.merge(left, right, on='awb number', how='outer', indicator=True,
    suffixes=('_file1', '_file2'))].  A frame in which a label is
    repeated makes the merge (key label) or the later column arithmetic
    (value label) raise; the embedding raises at once.  Then the kinds of
    the two key columns are checked, then the rows are joined. *)
Definition merge (left right : DataFrame) : M (list MergedRow) :=
  match records left, records right with
  | Some A, Some B =>
      if incompatible_keys (awb <$> A) (awb <$> B)
      then raise (incompatible_keys_error (awb <$> A) (awb <$> B))
      else mret (merged_row A B <$> outer_join A B)
  | _, _ => raise (ValueError "The column label is not unique.")
  end.

(** The exception of [str - x] and of [x - str]. *)
Definition unsupported_sub : exn :=
  TypeError "unsupported operand type(s) for -".

(** [x - y] on two cells of a column.  A column that holds a text is an
    object column; there pandas (1.x, 2.x) applies the operator only where
    both cells are present and puts NaN elsewhere.  On numbers NaN
    propagates by itself. *)
Definition cell_sub (x y : cell) : M cell :=
  match x, y with
  | CNum a, CNum b => mret (CNum (float64_sub a b))
  | _, _ =>
      if isna x || isna y then mret NaN
      else raise unsupported_sub
  end.

(** [abs(x)] on a cell. *)
Definition cell_abs (x : cell) : M cell :=
  match x with
  | CNum a => mret (CNum (SFabs a))
  | CText _ => raise (TypeError "bad operand type for abs(): 'str'")
  end.

(** A row of the merged frame once the column [weight_diff] is set. *)
Record ResultRow : Type := mkResultRow {
  merged : MergedRow;
  weight_diff : cell
}.

(** [(df['weight_file1'] - df['weight_file2']).abs()], row by row. *)
Definition abs_diff (r : MergedRow) : M ResultRow :=
  d ← cell_sub (weight_file1 r) (weight_file2 r);
  d' ← cell_abs d;
  mret (mkResultRow r d').

(** [df[mask].drop(columns=['_merge'])] as a frame. *)
Definition drop_merge (l : list ResultRow) : DataFrame :=
  mkDataFrame ["awb number"; "weight_file1"; "weight_file2"; "weight_diff"]
    ((λ r, [awb_number (merged r); weight_file1 (merged r);
            weight_file2 (merged r); weight_diff r]) <$> l).

End Pandas.

(** ** The application *)

Module App.
Import Pandas.

Definition UPLOAD_FOLDER : string := "uploads".
Definition PROCESSED_FOLDER : string := "processed".

(** The two labels every input must carry once normalised. *)
Definition required_columns : list string := ["awb number"; "weight"].

(** The message of the [ValueError] raised for file [label]. *)
Definition missing_columns_message (label : string) : string :=
  label ++ " is missing required columns: 'AWB number' and/or 'Weight'.".

(** [if 'awb number' not in df.columns or 'weight' not in df.columns:
       raise ValueError(...)] *)
Definition require_columns (label : string) (df : DataFrame) : M unit :=
  if negb (has_column "awb number" df) || negb (has_column "weight" df)
  then raise (ValueError (missing_columns_message label))
  else mret tt.

(** [f"Error comparing the Excel files: {e}"] *)
Definition error_line (e : exn) : string :=
  "Error comparing the Excel files: " ++ exn_str e.

(** What [compare_excel_files] returns: the four values, or four [None]. *)
Definition comparison : Type := option (DataFrame * DataFrame * string * string).

Definition compare_excel_files (file1_path file2_path : string) : M comparison :=
  try_except
    (df1 ← read_excel file1_path;
     df2 ← read_excel file2_path;
     let df1 := normalize_columns df1 in
     let df2 := normalize_columns df2 in
     require_columns "File 1" df1;;
     require_columns "File 2" df2;;
     let df1_processed := select_columns ["awb number"; "weight"] df1 in
     let df2_processed := select_columns ["awb number"; "weight"] df2 in
     merged_df ← merge df1_processed df2_processed;
     merged_df ← mapM abs_diff merged_df;
     let matching_rows :=
       drop_merge (filter (λ r, _merge (merged r) = both) merged_df) in
     let mismatching_rows :=
       drop_merge (filter (λ r, _merge (merged r) ≠ both) merged_df) in
     let matching_rows_path :=
       OsPath.join PROCESSED_FOLDER "matching_awb_numbers.xlsx" in
     let mismatching_rows_path :=
       OsPath.join PROCESSED_FOLDER "mismatching_awb_numbers.xlsx" in
     to_excel matching_rows matching_rows_path;;
     to_excel mismatching_rows mismatching_rows_path;;
     mret (Some (matching_rows, mismatching_rows,
                 matching_rows_path, mismatching_rows_path)))
    (λ e, print (error_line e);; mret None).

(** [flask.send_file(path, as_attachment=True)]: the file, or the error of
    the file system when there is none. *)
Definition send_file (path : string) : M file := read_file path.

(** The route hands [download_file] one segment of the URL, which holds
    no slash; the function itself takes any name. *)
Definition download_file (filename : string) : M file :=
  let file_path := OsPath.join PROCESSED_FOLDER filename in
  send_file file_path.

(** What Flask answers for a view: the value of the view, status 404 for
    the [NotFound] of werkzeug, status 500 for any other exception that
    leaves the view. *)
Inductive response : Type :=
  | Attachment (f : file)
  | NotFound
  | InternalServerError (e : exn).

Definition respond (view : M file) (w : world) : response :=
  match (view w).1 with
  | inr f => Attachment f
  | inl HTTPNotFound => NotFound
  | inl e => InternalServerError e
  end.

(** *** The stages of [compare_excel_files] on their own *)

(** The parse of one input: the statements of [compare_excel_files] that
    touch that input between [read_excel] and [pd.merge]. *)
Definition parse (label : string) (raw : DataFrame) : M DataFrame :=
  let df := normalize_columns raw in
  require_columns label df;;
  mret (select_columns ["awb number"; "weight"] df).

(** The statements from [pd.merge] to the two filters. *)
Definition reconcile (df1_processed df2_processed : DataFrame)
  : M (DataFrame * DataFrame) :=
  merged_df ← merge df1_processed df2_processed;
  merged_df ← mapM abs_diff merged_df;
  mret (drop_merge (filter (λ r, _merge (merged r) = both) merged_df),
        drop_merge (filter (λ r, _merge (merged r) ≠ both) merged_df)).

(** Reading and parsing one input. *)
Definition load (label path : string) : M DataFrame :=
  raw ← read_excel path;
  parse label raw.

(** The paths of the two artifacts. *)
Definition matching_path : string := "processed/matching_awb_numbers.xlsx".
Definition mismatching_path : string := "processed/mismatching_awb_numbers.xlsx".

(** Everything [compare_excel_files] computes before it writes: both
    reads, both parses, the reconciliation. *)
Definition prepare (file1_path file2_path : string) : M (DataFrame * DataFrame) :=
  raw1 ← read_excel file1_path;
  raw2 ← read_excel file2_path;
  df1_processed ← parse "File 1" raw1;
  df2_processed ← parse "File 2" raw2;
  reconcile df1_processed df2_processed.

(** The dataset parsed from one input: the key and the value of every
    row, when the input loads. *)
Definition dataset (label path : string) (w : world) : option (list Rec) :=
  match (load label path w).1 with
  | inr df => records df
  | inl _ => None
  end.

(** The names under which the result page offers the two artifacts. *)
Definition artifact_names : list string :=
  ["matching_awb_numbers.xlsx"; "mismatching_awb_numbers.xlsx"].

(** The columns of [required_columns] that a frame lacks. *)
Definition missing_columns (df : DataFrame) : list string :=
  filter (λ c, c ∉ columns df) required_columns.

End App.

(** ** The upload view *)

Module Views.
Import Pandas App.

(** An entry of [request.files]: the name the client gave and the bytes it
    sent.  werkzeug hands the name over as it came. *)
Record FileStorage : Type := mkFileStorage {
  filename : string;
  content : file
}.

(** [file.save(dst)]: the upload written at [dst]. *)
Definition save (upload : FileStorage) (dst : string) : M unit :=
  write_file dst (content upload).

(** What a view returns: the rendered result page, stood for by the two
    frames whose tables it shows, or a text with its status. *)
Inductive view_result : Type :=
  | ResultPage (matching_html mismatching_html : DataFrame)
  | Plain (body : string) (status : nat).

(** The columns both tables of the result page show. *)
Definition shown_columns : list string :=
  ["awb number"; "weight_file1"; "weight_file2"; "weight_diff"].

(** The view of [POST /compare]; an exception that leaves it is answered
    by Flask with status 500. *)
Definition compare_files (request_files : gmap string FileStorage)
  : M view_result :=
  match request_files !! "file1", request_files !! "file2" with
  | Some file1, Some file2 =>
      let file1_path := OsPath.join UPLOAD_FOLDER (filename file1) in
      let file2_path := OsPath.join UPLOAD_FOLDER (filename file2) in
      save file1 file1_path;;
      save file2 file2_path;;
      result ← compare_excel_files file1_path file2_path;
      match result with
      | Some (matching_data, mismatching_data, _, _) =>
          mret (ResultPage (select_columns shown_columns matching_data)
                           (select_columns shown_columns mismatching_data))
      | None => mret (Plain "There was an error processing the files." 500)
      end
  | _, _ => mret (Plain "Please upload both files." 400)
  end.

(** The resolved path under which an upload of the given name is saved. *)
Definition upload_path (name : string) : string :=
  OsPath.resolve (OsPath.join UPLOAD_FOLDER name).

(** A name without a slash. *)
Fixpoint slash_free (s : string) : bool :=
  match s with
  | EmptyString => true
  | String c s' => negb (Ascii.eqb c "/") && slash_free s'
  end.

(** A name that is one component of a path: no slash, not empty and
    neither of the two dot names. *)
Definition plain_name (s : string) : bool :=
  slash_free s && negb (String.eqb s "") && negb (String.eqb s ".")
    && negb (String.eqb s "..").

End Views.

(** ** The relational reading of the outer join *)

Module Relational.
Import Pandas.

(** How many rows of [l] carry the key [k]. *)
Definition key_count (k : cell) (l : list Rec) : nat :=
  length (filter (λ r, merge_key (awb r) = merge_key k) l).

(** The key universe: the keys of either side, each listed once. *)
Definition key_universe (A B : list Rec) : list cell :=
  remove_dups ((λ r, merge_key (awb r)) <$> (A ++ B)).

(** The number of rows one key contributes to a full outer join: each
    pair of rows when both sides have the key, else the rows of the side
    that has it. *)
Definition key_multiplicity (a b : nat) : nat :=
  match a, b with
  | 0, _ => b
  | _, 0 => a
  | _, _ => a * b
  end.

(** The cardinality of the full outer join, key by key over the key
    universe. *)
Definition outer_join_cardinality (A B : list Rec) : nat :=
  sum_list ((λ k, key_multiplicity (key_count k A) (key_count k B))
              <$> key_universe A B).

(** The value of [weight_diff] for two weights, or the exception of the
    subtraction. *)
Definition diff_cell (x y : cell) : exn + cell :=
  match x, y with
  | CNum a, CNum b => inr (CNum (SFabs (float64_sub a b)))
  | _, _ =>
      if isna x || isna y then inr NaN
      else inl unsupported_sub
  end.

Definition with_diff (r : MergedRow) : ResultRow :=
  mkResultRow r (match diff_cell (weight_file1 r) (weight_file2 r) with
                 | inr d => d
                 | inl _ => NaN
                 end).

(** The cells of the output row of one indexer pair. *)
Definition result_row (A B : list Rec) (ix : indexer) : list cell :=
  let r := with_diff (merged_row A B ix) in
  [awb_number (merged r); weight_file1 (merged r); weight_file2 (merged r);
   weight_diff r].


(** The rows of both sides under one indexer pair share a key. *)
Definition paired (A B : list Rec) (i j : nat) : Prop :=
  ∃ a b, A !! i = Some a ∧ B !! j = Some b
         ∧ merge_key (awb a) = merge_key (awb b).

(** Row [i] of [A] has no row of [B] with its key. *)
Definition alone (A B : list Rec) (i : nat) : Prop :=
  ∃ a, A !! i = Some a ∧ ∀ b, b ∈ B → merge_key (awb b) ≠ merge_key (awb a).

(** The indexer pairs an outer join of [A] and [B] must list. *)
Definition joins (A B : list Rec) (ix : indexer) : Prop :=
  match ix with
  | (Some i, Some j) => paired A B i j
  | (Some i, None) => alone A B i
  | (None, Some j) => alone B A j
  | (None, None) => False
  end.

(** Two key cells are one key: two equal texts, two equal numbers (the
    two zeros are equal), two empty cells; a text is never a number. *)
Definition same_key (x y : cell) : bool :=
  match x, y with
  | CText s, CText t => String.eqb s t
  | CNum a, CNum b => (isna x && isna y) || SFeqb a b
  | _, _ => false
  end.



End Relational.

(** ** The scenarios of the specification *)

Module Scenario.
Import Pandas.

Definition num (z : Z) : cell := CNum (float64_of_Z z).

(** A = [100: 5.0, 200: 3.0], B = [100: 5.0, 300: 1.0]. *)
Definition A : list Rec :=
  [mkRec (CText "100") (num 5); mkRec (CText "200") (num 3)].
Definition B : list Rec :=
  [mkRec (CText "100") (num 5); mkRec (CText "300") (num 1)].

(** Key 100 twice in A with different weights, once in B. *)
Definition A_dup : list Rec :=
  [mkRec (CText "100") (num 5); mkRec (CText "100") (num 7)].
Definition B_one : list Rec := [mkRec (CText "100") (num 6)].

(** A text in the weight column, under a key that B has too. *)
Definition A_text : list Rec := [mkRec (CText "100") (CText "abc")].



(** A sheet with two columns the program does not ask for. *)
Definition wide : DataFrame :=
  mkDataFrame [" AWB Number "; "Notes"; "Weight"; "Price"]
              [[CText "100"; CText "fragile"; num 5; num 9]].

(** A sheet with the rows of a dataset under the given labels. *)
Definition sheet (key_label value_label : string) (l : list Rec) : DataFrame :=
  mkDataFrame [key_label; value_label] ((λ r, [awb r; weight r]) <$> l).

(** The uploads of the scenarios, the source of the program, and one
    file under the processed folder that no comparison wrote; no
    comparison has run. *)
Definition uploads : world :=
  mkWorld (<["uploads/a.xlsx" := Workbook (sheet "AWB Number" " Weight " A)]>
          (<["uploads/b.xlsx" := Workbook (sheet "awb number" "WEIGHT" B)]>
          (<["uploads/c.xlsx" := Workbook (sheet "AWB number" "Weight" A_dup)]>
          (<["uploads/d.xlsx" := Workbook (sheet "AWB number" "Weight" B_one)]>
          (<["uploads/t.xlsx" := Workbook (sheet "AWB number" "Weight" A_text)]>
          (<["processed/notes.txt" := Blob "left here by hand"]>
          (<["app.py" := Blob "from flask import Flask"]> ∅))))))) ∅ [].


End Scenario.

(** ** Readings of the frames *)

Module Frames.
Import Pandas.

(** Some row of the dataset carries the key [k]. *)
Definition has_key (k : cell) (l : list Rec) : Prop :=
  ∃ r, r ∈ l ∧ merge_key (awb r) = merge_key k.

(** The key cell of an output row. *)
Definition row_key (row : list cell) : cell := nth 0 row NaN.

(** An output row with its two weights exchanged and its key in the form
    [pd.merge] compares. *)
Definition swapped (row : list cell) : list cell :=
  [merge_key (nth 0 row NaN); nth 2 row NaN; nth 1 row NaN; nth 3 row NaN].

(** An output row with its key in the form [pd.merge] compares. *)
Definition keyed (row : list cell) : list cell :=
  [merge_key (nth 0 row NaN); nth 1 row NaN; nth 2 row NaN; nth 3 row NaN].

(** A number that is neither infinite nor NaN. *)
Definition is_finite (x : spec_float) : bool :=
  match x with
  | S754_zero _ | S754_finite _ _ _ => true
  | _ => false
  end.

(** An indexer pair with its two sides exchanged. *)
Definition swap_sides (ix : indexer) : indexer := (ix.2, ix.1).


(** No two rows of the dataset carry one key. *)
Definition unique_keys (l : list Rec) : Prop :=
  NoDup ((λ r, merge_key (awb r)) <$> l).

End Frames.

(** ** Requests and worlds of the scenarios of the views *)

Module Requests.
Import Pandas App Views.

(** The form of [POST /compare] with its two fields filled. *)
Definition form (file1 file2 : FileStorage) : gmap string FileStorage :=
  <["file1" := file1]> (<["file2" := file2]> ∅).

Definition first : FileStorage :=
  mkFileStorage "a.xlsx" (Workbook (Scenario.sheet "AWB Number" " Weight " Scenario.A)).
Definition second : FileStorage :=
  mkFileStorage "b.xlsx" (Workbook (Scenario.sheet "awb number" "WEIGHT" Scenario.B)).

(** The second workbook sent under the name of the first. *)
Definition second_as_first : FileStorage :=
  mkFileStorage "a.xlsx" (content second).

(** An upload without a name, and one with an absolute name. *)
Definition unnamed : FileStorage := mkFileStorage "" (content first).
Definition absolute : FileStorage :=
  mkFileStorage "/srv/app/app.py" (content second).

(** No file yet, everything writable. *)
Definition empty_disk : world := mkWorld ∅ ∅ [].

(** The upload folder is a folder: nothing can be written at its own
    path. *)
Definition folder_locked : world := mkWorld ∅ {["uploads"]} [].



(** A sheet with two columns that normalise to the key label. *)
Definition twice : DataFrame :=
  mkDataFrame ["AWB Number"; "awb number "; "Weight"]
              [[CText "100"; CText "100"; Scenario.num 5]].
Definition relabelled : world :=
  with_file "uploads/e.xlsx" (Workbook twice) Scenario.uploads.

(** [Scenario.uploads] after some unrelated activity: one more upload
    and one more printed line. *)
Definition busier : world :=
  with_file "uploads/z.xlsx" (Blob "") (with_line "an earlier line" Scenario.uploads).

End Requests.

(** * Properties *)

Local Open Scope nat_scope.

Section join_facts.
Import Pandas Relational.

Lemma merge_key_idemp c : merge_key (merge_key c) = merge_key c.
Proof. by destruct c as [[]|]. Qed.

Lemma key_positions_elem j k l x :
  x ∈ key_positions j k l ↔
  ∃ r, j ≤ x ∧ l !! (x - j) = Some r ∧ merge_key (awb r) = merge_key k.
Proof.
  revert j. induction l as [|r l IH]; intros j; simpl.
  - split; [by intros ?%elem_of_nil | by intros (? & _ & ? & _)].
  - destruct (decide _) as [Hk|Hk].
    + rewrite elem_of_cons, IH. split.
      * intros [->|(r' & Hj & Hl & Hr)].
        -- exists r. by rewrite Nat.sub_diag.
        -- exists r'. split; [lia|]. split; [|done].
           by replace (x - j) with (S (x - S j)) by lia.
      * intros (r' & Hj & Hl & Hr).
        destruct (decide (x = j)) as [->|Hne]; [by left|right].
        exists r'. split; [lia|]. split; [|done].
        by replace (x - j) with (S (x - S j)) in Hl by lia.
    + rewrite IH. split.
      * intros (r' & Hj & Hl & Hr). exists r'. split; [lia|]. split; [|done].
        by replace (x - j) with (S (x - S j)) by lia.
      * intros (r' & Hj & Hl & Hr).
        destruct (decide (x = j)) as [->|Hne].
        { rewrite Nat.sub_diag in Hl. by simplify_eq/=. }
        exists r'. split; [lia|]. split; [|done].
        by replace (x - j) with (S (x - S j)) in Hl by lia.
Qed.

Lemma key_positions_NoDup j k l : NoDup (key_positions j k l).
Proof.
  revert j. induction l as [|r l IH]; intros j; simpl; [constructor|].
  destruct (decide _); [|done]. constructor; [|done].
  rewrite key_positions_elem. intros (? & ? & _). lia.
Qed.

Lemma key_positions_length j k l : length (key_positions j k l) = key_count k l.
Proof.
  unfold key_count. revert j. induction l as [|r l IH]; intros j; simpl; [done|].
  rewrite filter_cons. destruct (decide _); simpl; by rewrite IH.
Qed.

Lemma key_positions_nil k l :
  key_positions 0 k l = [] ↔ ∀ r, r ∈ l → merge_key (awb r) ≠ merge_key k.
Proof.
  split.
  - intros Hnil r Hr' Hr. apply list_elem_of_lookup in Hr' as [i Hi].
    assert (i ∈ key_positions 0 k l) as Hin.
    { apply key_positions_elem. exists r. rewrite Nat.sub_0_r.
      split; [lia|done]. }
    rewrite Hnil in Hin. by apply elem_of_nil in Hin.
  - intros Hall. destruct (key_positions 0 k l) as [|x xs] eqn:E; [done|].
    assert (x ∈ key_positions 0 k l) as Hin by (rewrite E; left).
    apply key_positions_elem in Hin as (r & _ & Hl & Hr).
    exfalso. eapply Hall; [|done]. by eapply list_elem_of_lookup_2.
Qed.

Lemma insert_key_perm k l : insert_key k l ≡ₚ k :: l.
Proof.
  induction l as [|x l IH]; simpl; [done|].
  destruct (key_leb k x); [done|]. by rewrite IH, Permutation_swap.
Qed.

(** Sorting rearranges the keys and does no more. *)
Lemma sort_keys_perm l : sort_keys l ≡ₚ l.
Proof.
  induction l as [|x l IH]; simpl; [done|].
  by rewrite insert_key_perm, IH.
Qed.

Lemma join_keys_elem A B k :
  k ∈ join_keys A B ↔ ∃ r, r ∈ A ++ B ∧ k = merge_key (awb r).
Proof.
  unfold join_keys.
  rewrite sort_keys_perm, elem_of_remove_dups, list_elem_of_fmap.
  split; intros (r & ? & ?); by exists r.
Qed.

Lemma join_keys_NoDup A B : NoDup (join_keys A B).
Proof. unfold join_keys. rewrite sort_keys_perm. apply NoDup_remove_dups. Qed.

Lemma join_keys_canonical A B k : k ∈ join_keys A B → merge_key k = k.
Proof. intros (r & _ & ->)%join_keys_elem. apply merge_key_idemp. Qed.

(** The rows that one key contributes. *)
Lemma key_rows_elem k A B (ix : indexer) :
  ix ∈ key_rows k A B ↔
  match ix with
  | (Some i, Some j) => i ∈ key_positions 0 k A ∧ j ∈ key_positions 0 k B
  | (Some i, None) => i ∈ key_positions 0 k A ∧ key_positions 0 k B = []
  | (None, Some j) => key_positions 0 k A = [] ∧ j ∈ key_positions 0 k B
  | (None, None) => False
  end.
Proof.
  unfold key_rows.
  destruct (key_positions 0 k A) as [|i0 ls], (key_positions 0 k B) as [|j0 rs];
    destruct ix as [[i|] [j|]];
    rewrite ?list_elem_of_bind; try setoid_rewrite list_elem_of_fmap;
    rewrite ?list_elem_of_fmap; try setoid_rewrite elem_of_nil;
    (split; intros H; try contradiction;
     decompose [ex and] H; clear H; simplify_eq;
     try contradiction; eauto 6).
Qed.

Lemma key_rows_NoDup k A B : NoDup (key_rows k A B).
Proof.
  pose proof (key_positions_NoDup 0 k A) as HA.
  pose proof (key_positions_NoDup 0 k B) as HB.
  unfold key_rows.
  destruct (key_positions 0 k A) as [|i0 ls], (key_positions 0 k B) as [|j0 rs];
    try (apply (NoDup_fmap_2_strong _); [|done]; by intros ?? _ _ [= ->]).
  apply NoDup_bind; [| |done].
  - intros i i' ix _ _ (? & -> & _)%list_elem_of_fmap
                       (? & [= -> _] & _)%list_elem_of_fmap.
    done.
  - intros i _. apply (NoDup_fmap_2_strong _); [|done]. by intros ?? _ _ [= ->].
Qed.

Lemma bind_length {X Y} (f : X → list Y) (l : list X) :
  length (l ≫= f) = sum_list ((λ x, length (f x)) <$> l).
Proof.
  induction l as [|x l IH]; csimpl; [done|]. by rewrite length_app, IH.
Qed.

Lemma key_rows_length k A B :
  length (key_rows k A B) = key_multiplicity (key_count k A) (key_count k B).
Proof.
  rewrite <-!(key_positions_length 0). unfold key_rows, key_multiplicity.
  destruct (key_positions 0 k A) as [|i0 ls], (key_positions 0 k B) as [|j0 rs];
    rewrite ?length_fmap; try done.
  rewrite bind_length.
  rewrite (sum_list_fmap_same (length (j0 :: rs)))
    by (apply Forall_forall; intros; by rewrite length_fmap).
  done.
Qed.

(** The outer join lists exactly the pairs of the relational reading. *)
Lemma outer_join_elem A B ix : ix ∈ outer_join A B ↔ joins A B ix.
Proof.
  unfold outer_join. rewrite list_elem_of_bind.
  setoid_rewrite key_rows_elem. setoid_rewrite join_keys_elem.
  assert (∀ l k i, i ∈ key_positions 0 k l ↔
            ∃ r, l !! i = Some r ∧ merge_key (awb r) = merge_key k) as Hpos.
  { intros l k i. rewrite key_positions_elem. rewrite Nat.sub_0_r.
    split; [intros (r & _ & ?); by exists r|intros (r & ?)].
    exists r. split; [lia|done]. }
  destruct ix as [[i|] [j|]]; simpl.
  - split.
    + intros (k & [(a & Ha & Hka)%Hpos (b & Hb & Hkb)%Hpos] & _).
      exists a, b. by rewrite Hka, Hkb.
    + intros (a & b & Ha & Hb & Hk). exists (merge_key (awb a)). split.
      * split; apply Hpos; [exists a|exists b];
          by rewrite merge_key_idemp.
      * exists a. split; [|done]. apply elem_of_app. left.
        by eapply list_elem_of_lookup_2.
  - split.
    + intros (k & [(a & Ha & Hka)%Hpos Hn] & _). exists a. split; [done|].
      intros b Hb. rewrite Hka. revert b Hb. by apply key_positions_nil.
    + intros (a & Ha & Hn). exists (merge_key (awb a)). split.
      * split; [apply Hpos; exists a; by rewrite merge_key_idemp|].
        apply key_positions_nil. intros b Hb. rewrite merge_key_idemp.
        by apply Hn.
      * exists a. split; [|done]. apply elem_of_app. left.
        by eapply list_elem_of_lookup_2.
  - split.
    + intros (k & [Hn (b & Hb & Hkb)%Hpos] & _). exists b. split; [done|].
      intros a Ha. rewrite Hkb. revert a Ha. by apply key_positions_nil.
    + intros (b & Hb & Hn). exists (merge_key (awb b)). split.
      * split; [|apply Hpos; exists b; by rewrite merge_key_idemp].
        apply key_positions_nil. intros a Ha. rewrite merge_key_idemp.
        by apply Hn.
      * exists b. split; [|done]. apply elem_of_app. right.
        by eapply list_elem_of_lookup_2.
  - split; [by intros (? & ? & _)|done].
Qed.

Lemma outer_join_NoDup A B : NoDup (outer_join A B).
Proof.
  apply NoDup_bind; [|intros; apply key_rows_NoDup|apply join_keys_NoDup].
  intros k k' ix Hk Hk' Hix Hix'.
  rewrite <-(join_keys_canonical A B k), <-(join_keys_canonical A B k') by done.
  apply key_rows_elem in Hix, Hix'.
  assert (∀ l i, i ∈ key_positions 0 k l → i ∈ key_positions 0 k' l →
                 merge_key k = merge_key k') as Hsame.
  { intros l i (r & _ & Hr & Hkr)%key_positions_elem
               (r' & _ & Hr' & Hkr')%key_positions_elem.
    rewrite Hr in Hr'. injection Hr' as <-. by rewrite <-Hkr. }
  destruct ix as [[i|] [j|]]; try done.
  - by apply (Hsame A i); [apply Hix|apply Hix'].
  - by apply (Hsame A i); [apply Hix|apply Hix'].
  - by apply (Hsame B j); [apply Hix|apply Hix'].
Qed.

Lemma SFeqb_finite s1 m1 e1 s2 m2 e2 :
  SFeqb (S754_finite s1 m1 e1) (S754_finite s2 m2 e2) = true ↔
  s1 = s2 ∧ m1 = m2 ∧ e1 = e2.
Proof.
  unfold SFeqb, SFcompare.
  change (Pos.compare_cont Eq m1 m2) with (Pos.compare m1 m2).
  destruct s1, s2; try (split; [done|by intros [? _]]);
    destruct (Z.compare_spec e1 e2) as [->|?|?];
    try (split; [done|intros (_ & _ & ?); lia]);
    destruct (Pos.compare_spec m1 m2) as [->|?|?];
    try (split; [done|intros (_ & ? & _); lia]); done.
Qed.

(** The keys that [pd.merge] takes for equal are the keys that are
    one key. *)
Lemma same_key_merge_key x y :
  same_key x y = true ↔ merge_key x = merge_key y.
Proof.
  destruct x as [a|s], y as [b|t]; simpl.
  - destruct a as [sa|sa| |sa ma ea], b as [sb|sb| |sb mb eb];
      try (split; intros H; try done;
           repeat (match goal with b : bool |- _ => destruct b end);
           by simplify_eq).
    unfold isna. rewrite orb_false_l, SFeqb_finite. split.
    + by intros (-> & -> & ->).
    + by intros [= -> -> ->].
  - split; [done|]. by destruct a as [| | |].
  - split; [done|]. by destruct b as [| | |].
  - rewrite String.eqb_eq. split; [by intros ->|by intros [= ->]].
Qed.

(** Another order of the keys gives the same rows in another order:
    what holds of the rows up to permutation holds whether the keys come
    sorted or in the order of their first appearance. *)
Lemma outer_join_key_order A B keys :
  keys ≡ₚ join_keys A B → (k ← keys; key_rows k A B) ≡ₚ outer_join A B.
Proof. intros Hk. unfold outer_join. by rewrite Hk. Qed.

End join_facts.

(** Counting the rows of the join key by key. *)
Section cardinality.
Import Pandas Relational.

Lemma sum_list_fmap_ext {X} (f g : X → nat) (l : list X) :
  (∀ x, x ∈ l → f x = g x) → sum_list (f <$> l) = sum_list (g <$> l).
Proof.
  induction l as [|x l IH]; intros H; csimpl; [done|].
  rewrite H by left. rewrite IH; [done|]. intros y Hy. apply H. by right.
Qed.

Lemma sum_list_perm (l k : list nat) : l ≡ₚ k → sum_list l = sum_list k.
Proof. induction 1; simpl; lia. Qed.

Lemma key_count_cons k a A :
  key_count k (a :: A) =
  (if decide (merge_key (awb a) = merge_key k) then 1 else 0) + key_count k A.
Proof. unfold key_count. rewrite filter_cons. by destruct (decide _). Qed.

Lemma join_keys_universe A B : join_keys A B ≡ₚ key_universe A B.
Proof. apply sort_keys_perm. Qed.

Lemma outer_join_length A B :
  length (outer_join A B) = outer_join_cardinality A B.
Proof.
  unfold outer_join, outer_join_cardinality. rewrite bind_length.
  rewrite (sum_list_fmap_ext _
             (λ k, key_multiplicity (key_count k A) (key_count k B)))
    by (intros; apply key_rows_length).
  apply sum_list_perm. by rewrite join_keys_universe.
Qed.

End cardinality.

(** Running the program. *)
Section run_facts.
Import Pandas Relational App.

Lemma filter_fmap_comm {X Y} (f : X → Y) (P : Y → Prop) `{∀ y, Decision (P y)}
    (l : list X) :
  filter P (f <$> l) = f <$> filter (λ x, P (f x)) l.
Proof.
  induction l as [|x l IH]; csimpl; [done|].
  rewrite !filter_cons. destruct (decide (P (f x))); csimpl; by rewrite IH.
Qed.

Lemma abs_diff_run r w :
  abs_diff r w =
  (match diff_cell (weight_file1 r) (weight_file2 r) with
   | inl e => inl e
   | inr d => inr (mkResultRow r d)
   end, w).
Proof.
  unfold abs_diff, diff_cell, cell_sub.
  destruct (weight_file1 r) as [a|s]; destruct (weight_file2 r) as [b|t];
    simpl; try done.
  - by destruct a.
  - by destruct b.
Qed.

Lemma mapM_cons_run {X Y} (f : X → M Y) x l w :
  mapM f (x :: l) w =
  match f x w with
  | (inl e, w') => (inl e, w')
  | (inr y, w') =>
      match mapM f l w' with
      | (inl e, w'') => (inl e, w'')
      | (inr k, w'') => (inr (y :: k), w'')
      end
  end.
Proof. done. Qed.

Lemma mapM_abs_diff_world l w : (mapM abs_diff l w).2 = w.
Proof.
  induction l as [|r l IH]; [done|].
  rewrite mapM_cons_run, abs_diff_run.
  destruct (diff_cell _ _); [done|].
  destruct (mapM abs_diff l w) as [[e|k] w'] eqn:E; simpl in *; by subst.
Qed.

Lemma mapM_abs_diff_inr l w k w' :
  mapM abs_diff l w = (inr k, w') →
  w' = w ∧ k = with_diff <$> l ∧
  Forall (λ r, ∃ d, diff_cell (weight_file1 r) (weight_file2 r) = inr d) l.
Proof.
  revert k. induction l as [|r l IH]; intros k.
  - by intros [= <- <-].
  - rewrite mapM_cons_run, abs_diff_run.
    destruct (diff_cell (weight_file1 r) (weight_file2 r)) as [e|d] eqn:Ed;
      [done|].
    destruct (mapM abs_diff l w) as [[e|k'] w''] eqn:E; [done|].
    intros [= <- <-]. destruct (IH k' eq_refl) as (-> & -> & Hall).
    split; [done|]. split.
    + rewrite fmap_cons. f_equal. unfold with_diff. by rewrite Ed.
    + constructor; [by exists d|done].
Qed.


Lemma diff_cell_inl x y e : diff_cell x y = inl e → e = unsupported_sub.
Proof.
  unfold diff_cell. destruct x, y; try done;
    destruct (isna _ || isna _); by intros [= <-].
Qed.

Lemma mapM_abs_diff_inl l w :
  Exists (λ r, ∃ e, diff_cell (weight_file1 r) (weight_file2 r) = inl e) l →
  mapM abs_diff l w = (inl unsupported_sub, w).
Proof.
  induction 1 as [r l [e He]|r l Hl IH]; rewrite mapM_cons_run, abs_diff_run.
  - rewrite He. by rewrite (diff_cell_inl _ _ _ He).
  - destruct (diff_cell _ _) as [e'|d] eqn:E.
    + by rewrite (diff_cell_inl _ _ _ E).
    + by rewrite IH.
Qed.

Lemma read_excel_run path w :
  read_excel path w =
  (match fs w !! OsPath.resolve path with
   | Some (Workbook df) => inr df
   | Some (Blob _) =>
       inl (ValueError "Excel file format cannot be determined, you must specify an engine manually.")
   | None =>
       inl (OSError ("[Errno 2] No such file or directory: '" ++ path ++ "'")%string)
   end, w).
Proof.
  unfold read_excel, read_file, mbind, M_bind.
  by destruct (fs w !! OsPath.resolve path) as [[df|data]|].
Qed.

Lemma parse_run label raw w :
  parse label raw w =
  (if negb (has_column "awb number" (normalize_columns raw))
      || negb (has_column "weight" (normalize_columns raw))
   then inl (ValueError (missing_columns_message label))
   else inr (select_columns ["awb number"; "weight"] (normalize_columns raw)),
   w).
Proof.
  unfold parse, require_columns, mbind, M_bind.
  by destruct (negb _ || negb _).
Qed.

Lemma reconcile_run left right w :
  reconcile left right w =
  (match records left, records right with
   | Some A, Some B =>
       if incompatible_keys (awb <$> A) (awb <$> B)
       then inl (incompatible_keys_error (awb <$> A) (awb <$> B))
       else
         match (mapM abs_diff (merged_row A B <$> outer_join A B) w).1 with
         | inl e => inl e
         | inr merged_df =>
             inr (drop_merge (filter (λ r, _merge (merged r) = both) merged_df),
                  drop_merge (filter (λ r, _merge (merged r) ≠ both) merged_df))
         end
   | _, _ => inl (ValueError "The column label is not unique.")
   end, w).
Proof.
  unfold reconcile, merge, mbind, M_bind.
  destruct (records left) as [A|]; [|done].
  destruct (records right) as [B|]; [|done].
  destruct (incompatible_keys _ _); [done|].
  unfold mret, M_ret.
  pose proof (mapM_abs_diff_world (merged_row A B <$> outer_join A B) w) as Hw.
  destruct (mapM abs_diff _ w) as [[e|k] w']; simpl in *; by subst.
Qed.

Lemma matching_path_resolve :
  OsPath.resolve (OsPath.join PROCESSED_FOLDER "matching_awb_numbers.xlsx")
  = matching_path.
Proof. by vm_compute. Qed.

Lemma mismatching_path_resolve :
  OsPath.resolve (OsPath.join PROCESSED_FOLDER "mismatching_awb_numbers.xlsx")
  = mismatching_path.
Proof. by vm_compute. Qed.

(** [compare_excel_files] in one equation: the preparation and the two
    writes decide between the result and the printed line. *)
Lemma compare_excel_files_run p1 p2 w :
  compare_excel_files p1 p2 w =
  match (prepare p1 p2 w).1 with
  | inr (m, u) =>
      if decide (matching_path ∈ readonly w)
      then (inr None,
            with_line
              (error_line
                 (OSError "[Errno 13] Permission denied: 'processed/matching_awb_numbers.xlsx'"))
              w)
      else if decide (mismatching_path ∈ readonly w)
      then (inr None,
            with_line
              (error_line
                 (OSError "[Errno 13] Permission denied: 'processed/mismatching_awb_numbers.xlsx'"))
              (with_file matching_path (Workbook m) w))
      else (inr (Some (m, u, matching_path, mismatching_path)),
            with_file mismatching_path (Workbook u)
              (with_file matching_path (Workbook m) w))
  | inl e => (inr None, with_line (error_line e) w)
  end.
Proof.
  unfold compare_excel_files, prepare, try_except, mbind, M_bind.
  rewrite !read_excel_run.
  destruct (fs w !! OsPath.resolve p1) as [[df1|?]|]; [|done..].
  destruct (fs w !! OsPath.resolve p2) as [[df2|?]|]; [|done..].
  rewrite !parse_run. unfold require_columns.
  destruct (negb _ || negb _); [done|].
  destruct (negb _ || negb _); [done|].
  rewrite reconcile_run. unfold merge.
  destruct (records _) as [A|]; [|done].
  destruct (records _) as [B|]; [|done].
  destruct (incompatible_keys _ _); [done|].
  unfold mret, M_ret.
  pose proof (mapM_abs_diff_world (merged_row A B <$> outer_join A B) w) as Hw.
  destruct (mapM abs_diff _ w) as [[e|k] w']; simpl in Hw; subst w'; [done|].
  cbn [fst]. unfold to_excel, write_file.
  rewrite matching_path_resolve, mismatching_path_resolve.
  change (OsPath.join PROCESSED_FOLDER "matching_awb_numbers.xlsx")
    with matching_path.
  change (OsPath.join PROCESSED_FOLDER "mismatching_awb_numbers.xlsx")
    with mismatching_path.
  destruct (decide (matching_path ∈ readonly w)); [done|].
  cbn [readonly with_file].
  by destruct (decide (mismatching_path ∈ readonly w)).
Qed.

(** When an input does not load, the preparation ends with the error of
    a load. *)
Lemma prepare_load_failure p1 p2 w e :
  (load "File 1" p1 w).1 = inl e ∨ (load "File 2" p2 w).1 = inl e →
  ∃ e', ((load "File 1" p1 w).1 = inl e' ∨ (load "File 2" p2 w).1 = inl e') ∧
        (prepare p1 p2 w).1 = inl e'.
Proof.
  unfold load, prepare, mbind, M_bind. rewrite !read_excel_run.
  destruct (fs w !! OsPath.resolve p1) as [[df1|?]|];
    destruct (fs w !! OsPath.resolve p2) as [[df2|?]|];
    rewrite ?parse_run;
    try (intros _; eexists; split; [|reflexivity]; (by left) || (by right)).
  - destruct (negb (has_column "awb number" (normalize_columns df1)) || _);
      destruct (negb (has_column "awb number" (normalize_columns df2)) || _);
      cbn [fst];
      try (intros _; eexists; split; [|reflexivity]; (by left) || (by right)).
    by intros [?|?].
Qed.

Lemma dataset_Some label path w A :
  dataset label path w = Some A →
  ∃ raw df, read_excel path w = (inr raw, w) ∧
            parse label raw w = (inr df, w) ∧ records df = Some A.
Proof.
  unfold dataset, load, mbind, M_bind. rewrite read_excel_run.
  destruct (fs w !! OsPath.resolve path) as [[raw|?]|]; [|done..].
  rewrite parse_run. destruct (negb _ || negb _) eqn:E; [done|].
  cbn [fst]. intros HA.
  exists raw, (select_columns ["awb number"; "weight"] (normalize_columns raw)).
  by rewrite parse_run, E.
Qed.

Lemma prepare_datasets p1 p2 w A B :
  dataset "File 1" p1 w = Some A → dataset "File 2" p2 w = Some B →
  (prepare p1 p2 w).1 =
  if incompatible_keys (awb <$> A) (awb <$> B)
  then inl (incompatible_keys_error (awb <$> A) (awb <$> B))
  else
    match (mapM abs_diff (merged_row A B <$> outer_join A B) w).1 with
    | inl e => inl e
    | inr merged_df =>
        inr (drop_merge (filter (λ r, _merge (merged r) = both) merged_df),
             drop_merge (filter (λ r, _merge (merged r) ≠ both) merged_df))
    end.
Proof.
  intros (raw1 & df1 & Hr1 & Hp1 & HA)%dataset_Some
         (raw2 & df2 & Hr2 & Hp2 & HB)%dataset_Some.
  unfold prepare, mbind, M_bind. rewrite Hr1, Hr2, Hp1, Hp2.
  by rewrite reconcile_run, HA, HB.
Qed.

(** A comparison that returns its result has prepared both frames and
    written both artifacts. *)
Lemma compare_excel_files_Some p1 p2 w m u mp up w' :
  compare_excel_files p1 p2 w = (inr (Some (m, u, mp, up)), w') →
  (prepare p1 p2 w).1 = inr (m, u) ∧
  mp = matching_path ∧ up = mismatching_path ∧
  (matching_path ∉ readonly w) ∧ (mismatching_path ∉ readonly w) ∧
  w' = with_file mismatching_path (Workbook u)
         (with_file matching_path (Workbook m) w).
Proof.
  rewrite compare_excel_files_run.
  destruct (prepare p1 p2 w).1 as [e|[m' u']]; [done|].
  destruct (decide (matching_path ∈ readonly w)); [done|].
  destruct (decide (mismatching_path ∈ readonly w)); [done|].
  by intros [= <- <- <- <- <-].
Qed.

End run_facts.

(** ** Parsing *)

Section parsing.
Import Pandas Relational App.

Lemma label_positions_elem k name cols i :
  i ∈ label_positions k name cols → name ∈ cols.
Proof.
  revert k. induction cols as [|c cols IH]; intros k; simpl.
  - by intros ?%elem_of_nil.
  - destruct (decide (c = name)) as [->|]; [by left|].
    intros H. right. by eapply IH.
Qed.

Lemma missing_columns_nil df :
  missing_columns df = [] ↔
  negb (has_column "awb number" df) || negb (has_column "weight" df) = false.
Proof.
  unfold missing_columns, required_columns, has_column.
  rewrite !filter_cons, filter_nil.
  destruct (decide ("awb number" ∉ columns df)) as [H1|H1];
    destruct (decide ("weight" ∉ columns df)) as [H2|H2].
  - rewrite (bool_decide_eq_false_2 ("awb number" ∈ columns df)) by done.
    by split.
  - rewrite (bool_decide_eq_false_2 ("awb number" ∈ columns df)) by done.
    by split.
  - rewrite (bool_decide_eq_false_2 ("weight" ∈ columns df)) by done.
    rewrite orb_true_r. by split.
  - apply dec_stable in H1. apply dec_stable in H2.
    rewrite (bool_decide_eq_true_2 ("awb number" ∈ columns df)) by done.
    rewrite (bool_decide_eq_true_2 ("weight" ∈ columns df)) by done.
    by split.
Qed.

Lemma select_columns_unique df i j :
  label_positions 0 "awb number" (columns df) = [i] →
  label_positions 0 "weight" (columns df) = [j] →
  select_columns ["awb number"; "weight"] df =
  mkDataFrame ["awb number"; "weight"]
              ((λ r, [nth i r NaN; nth j r NaN]) <$> rows df).
Proof. intros Hi Hj. unfold select_columns. csimpl. by rewrite Hi, Hj. Qed.

(** The parse of a sheet succeeds exactly when no required label is
    missing. *)
Lemma parse_missing_columns label raw w :
  parse label raw w =
  (if decide (missing_columns (normalize_columns raw) = [])
   then inr (select_columns ["awb number"; "weight"] (normalize_columns raw))
   else inl (ValueError (missing_columns_message label)), w).
Proof.
  rewrite parse_run.
  destruct (decide (missing_columns (normalize_columns raw) = [])) as [Hm|Hm].
  - apply missing_columns_nil in Hm. by rewrite Hm.
  - destruct (negb _ || negb _) eqn:E; [done|].
    by apply missing_columns_nil in E.
Qed.

(** C4, as the program has it.  Parsing normalises every column label by
    [strip] and [lower] and leaves the rows alone; it fails exactly when
    a required label is missing, with a [ValueError] whose message names
    the file and lists both required columns whichever is missing; and
    when each required label occurs once, at [i] and at [j], the parsed
    frame has exactly these two columns, whatever else the sheet holds. *)
Theorem parse_schema label raw w :
  let df := normalize_columns raw in
  columns df = (λ c, Str.lower (Str.strip c)) <$> columns raw ∧
  rows df = rows raw ∧
  parse label raw w =
    (if decide (missing_columns df = [])
     then inr (select_columns ["awb number"; "weight"] df)
     else inl (ValueError
                 (label ++ " is missing required columns: 'AWB number' and/or 'Weight'.")%string),
     w) ∧
  ∀ i j,
    label_positions 0 "awb number" (columns df) = [i] →
    label_positions 0 "weight" (columns df) = [j] →
    parse label raw w =
      (inr (mkDataFrame ["awb number"; "weight"]
              ((λ r, [nth i r NaN; nth j r NaN]) <$> rows raw)), w).
Proof.
  intros df. split; [done|]. split; [done|].
  pose proof (parse_missing_columns label raw w) as Hrun. fold df in Hrun.
  split; [done|]. intros i j Hi Hj. rewrite Hrun.
  rewrite decide_True.
  - by rewrite (select_columns_unique df i j).
  - apply missing_columns_nil.
    assert ("awb number" ∈ columns df) as H1.
    { apply (label_positions_elem 0 _ _ i). rewrite Hi. by left. }
    assert ("weight" ∈ columns df) as H2.
    { apply (label_positions_elem 0 _ _ j). rewrite Hj. by left. }
    unfold has_column.
    by rewrite (bool_decide_eq_true_2 _ H1), (bool_decide_eq_true_2 _ H2).
Qed.

Lemma parse_schema_witness :
  label_positions 0 "awb number" (columns (normalize_columns Scenario.wide)) = [0] ∧
  label_positions 0 "weight" (columns (normalize_columns Scenario.wide)) = [2] ∧
  parse "File 1" Scenario.wide Scenario.uploads =
    (inr (mkDataFrame ["awb number"; "weight"] [[CText "100"; Scenario.num 5]]),
     Scenario.uploads).
Proof.
  split; [reflexivity|]. split; [reflexivity|].
  apply (proj2 (proj2 (proj2 (parse_schema "File 1" Scenario.wide Scenario.uploads)))
           0 2); reflexivity.
Defined.

(** C4, as the specification states it, fails: a sheet without weights
    and a sheet without keys lack different columns, yet the error of
    their parses is the same, so its message does not tell which column
    is missing. *)
Lemma missing_column_message_counterexample :
  let no_weight := mkDataFrame ["AWB number"] [[CText "100"]] in
  let no_key := mkDataFrame ["Weight"] [[Scenario.num 5]] in
  missing_columns (normalize_columns no_weight) = ["weight"] ∧
  missing_columns (normalize_columns no_key) = ["awb number"] ∧
  (parse "File 1" no_weight Scenario.uploads).1 =
    inl (ValueError "File 1 is missing required columns: 'AWB number' and/or 'Weight'.") ∧
  (parse "File 1" no_key Scenario.uploads).1 =
    (parse "File 1" no_weight Scenario.uploads).1.
Proof. repeat split; reflexivity. Qed.

End parsing.

(** ** The binary64 subtraction where it is exact *)

Section binary64.
Import Relational.
Local Open Scope Z_scope.















End binary64.

(** ** The reconciliation *)

Section reconciliation.
Import Pandas Relational App Frames.

(** An output row of a pair and an output row of a row without partner
    differ already in the key. *)
Lemma result_row_both_not_both A B ix ix' :
  joins A B ix → joins A B ix' →
  indicator_of ix = both → indicator_of ix' ≠ both →
  result_row A B ix ≠ result_row A B ix'.
Proof.
  intros Hix Hix' Hb Hnb Heq.
  assert (awb_number (merged_row A B ix) = awb_number (merged_row A B ix'))
    as Hkey by (unfold result_row in Heq; by simplify_eq/=).
  clear Heq. destruct ix as [[i|] [j|]]; try done.
  destruct Hix as (a & b & Ha & Hb' & Hk).
  unfold merged_row in Hkey; cbn [fst snd awb_number mbind option_bind] in Hkey.
  rewrite Ha in Hkey.
  destruct ix' as [[i'|] [j'|]]; try done;
    cbn [fst snd awb_number mbind option_bind] in Hkey.
  - destruct Hix' as (a' & Ha' & Hn). rewrite Ha' in Hkey.
    apply (Hn b); [by eapply list_elem_of_lookup_2|]. by rewrite <-Hkey.
  - destruct Hix' as (b' & Hb'' & Hn). rewrite Hb'' in Hkey.
    apply (Hn a); [by eapply list_elem_of_lookup_2|]. by rewrite Hkey.
Qed.

(** The frames a comparison returns, in terms of the two datasets. *)
Lemma compare_excel_files_frames p1 p2 w A B m u mp up w' :
  dataset "File 1" p1 w = Some A → dataset "File 2" p2 w = Some B →
  compare_excel_files p1 p2 w = (inr (Some (m, u, mp, up)), w') →
  rows m = result_row A B
             <$> filter (λ ix, indicator_of ix = both) (outer_join A B) ∧
  rows u = result_row A B
             <$> filter (λ ix, indicator_of ix ≠ both) (outer_join A B).
Proof.
  intros HA HB (Hp & _)%compare_excel_files_Some.
  rewrite (prepare_datasets _ _ _ A B) in Hp by done.
  destruct (incompatible_keys _ _); [done|].
  destruct (mapM abs_diff _ w) as [[e|k] w''] eqn:E; [done|].
  apply mapM_abs_diff_inr in E as (_ & -> & _).
  cbn [fst] in Hp. injection Hp as <- <-.
  unfold drop_merge; cbn [rows].
  by rewrite !filter_fmap_comm, <-!list_fmap_compose.
Qed.


(** The first scenario of the specification: key 100 is matched with
    difference 0; keys 200 and 300 are unmatched. *)
Example scenario_frames :
  (compare_excel_files "uploads/a.xlsx" "uploads/b.xlsx" Scenario.uploads).1 =
  inr (Some
         (mkDataFrame
            ["awb number"; "weight_file1"; "weight_file2"; "weight_diff"]
            [[CText "100"; Scenario.num 5; Scenario.num 5; CNum (S754_zero false)]],
          mkDataFrame
            ["awb number"; "weight_file1"; "weight_file2"; "weight_diff"]
            [[CText "200"; Scenario.num 3; NaN; NaN];
             [CText "300"; NaN; Scenario.num 1; NaN]],
          "processed/matching_awb_numbers.xlsx"%string,
          "processed/mismatching_awb_numbers.xlsx"%string)).
Proof. vm_compute. reflexivity. Qed.


Lemma pair_eq {X Y} (run : X * Y) x y : run.1 = x → run.2 = y → run = (x, y).
Proof. destruct run. by intros <- <-. Qed.





Lemma float64_sub_nan_r x : float64_sub x S754_nan = S754_nan.
Proof. by destruct x. Qed.

Lemma diff_cell_nan_r c : diff_cell c NaN = inr NaN.
Proof.
  destruct c as [x|s]; [|done]. unfold diff_cell, NaN.
  by rewrite float64_sub_nan_r.
Qed.

Lemma diff_cell_nan_l c : diff_cell NaN c = inr NaN.
Proof. by destruct c as [x|s]. Qed.

Lemma cell_sub_nan_r c w : cell_sub c NaN w = (inr NaN, w).
Proof.
  destruct c as [x|s]; [|done]. unfold cell_sub, NaN.
  by rewrite float64_sub_nan_r.
Qed.

Lemma cell_sub_nan_l c w : cell_sub NaN c w = (inr NaN, w).
Proof. by destruct c as [x|s]. Qed.

(** C3, as the program has it.  Every row of the unmatched frame comes
    from one row of [A] or of [B] without partner; the weight of the
    missing side is NaN and so is [weight_diff], the outcome of the same
    column subtraction against that NaN. *)
Theorem unmatched_rows_nan_diff p1 p2 w A B m u mp up w' row :
  dataset "File 1" p1 w = Some A → dataset "File 2" p2 w = Some B →
  compare_excel_files p1 p2 w = (inr (Some (m, u, mp, up)), w') →
  row ∈ rows u →
  (∃ i a, A !! i = Some a ∧ row = [awb a; weight a; NaN; NaN] ∧
          cell_sub (weight a) NaN w = (inr NaN, w)) ∨
  (∃ j b, B !! j = Some b ∧ row = [awb b; NaN; weight b; NaN] ∧
          cell_sub NaN (weight b) w = (inr NaN, w)).
Proof.
  intros HA HB Hrun Hrow.
  destruct (compare_excel_files_frames _ _ _ _ _ _ _ _ _ _ HA HB Hrun)
    as [_ Hu].
  rewrite Hu in Hrow.
  apply list_elem_of_fmap in Hrow as (ix & -> & [Hb Hin]%list_elem_of_filter).
  apply outer_join_elem in Hin. destruct ix as [[i|] [j|]]; try done.
  - destruct Hin as (a & Ha & _). left. exists i, a. split; [done|].
    unfold result_row, with_diff, merged_row.
    cbn [fst snd merged awb_number weight_file1 weight_file2 weight_diff
         mbind option_bind].
    rewrite Ha. cbn [from_option].
    by rewrite diff_cell_nan_r, cell_sub_nan_r.
  - destruct Hin as (b & Hb' & _). right. exists j, b. split; [done|].
    unfold result_row, with_diff, merged_row.
    cbn [fst snd merged awb_number weight_file1 weight_file2 weight_diff
         mbind option_bind].
    rewrite Hb'. cbn [from_option].
    by rewrite diff_cell_nan_l, cell_sub_nan_l.
Qed.

Lemma unmatched_rows_nan_diff_witness :
  ∃ m u w' row,
    dataset "File 1" "uploads/a.xlsx" Scenario.uploads = Some Scenario.A ∧
    dataset "File 2" "uploads/b.xlsx" Scenario.uploads = Some Scenario.B ∧
    compare_excel_files "uploads/a.xlsx" "uploads/b.xlsx" Scenario.uploads
      = (inr (Some (m, u, matching_path, mismatching_path)), w') ∧
    row ∈ rows u ∧
    ((∃ i a, Scenario.A !! i = Some a ∧ row = [awb a; weight a; NaN; NaN] ∧
             cell_sub (weight a) NaN Scenario.uploads
               = (inr NaN, Scenario.uploads)) ∨
     (∃ j b, Scenario.B !! j = Some b ∧ row = [awb b; NaN; weight b; NaN] ∧
             cell_sub NaN (weight b) Scenario.uploads
               = (inr NaN, Scenario.uploads))).
Proof.
  eexists _, _, _, _.
  split; [vm_compute; reflexivity|]. split; [vm_compute; reflexivity|].
  split; [apply pair_eq; [vm_compute; reflexivity|reflexivity]|].
  split; [left|].
  eapply (unmatched_rows_nan_diff
            "uploads/a.xlsx" "uploads/b.xlsx" Scenario.uploads
            Scenario.A Scenario.B);
    [vm_compute; reflexivity | vm_compute; reflexivity
    | apply pair_eq; [vm_compute; reflexivity|reflexivity] | left].
Defined.

(** C3, as the specification states it, fails: in the first scenario the
    row of key 200, which only file 1 has, carries NaN in [weight_diff],
    and that NaN is what the subtraction of a missing weight yields. *)
Lemma unmatched_diff_unset_counterexample :
  ∃ m u mp up,
    (compare_excel_files "uploads/a.xlsx" "uploads/b.xlsx" Scenario.uploads).1
      = inr (Some (m, u, mp, up)) ∧
    [CText "200"; Scenario.num 3; NaN; CNum S754_nan] ∈ rows u ∧
    (cell_sub (Scenario.num 3) NaN Scenario.uploads).1 = inr (CNum S754_nan) ∧
    isna (CNum S754_nan) = true.
Proof.
  eexists _, _, _, _. split; [vm_compute; reflexivity|].
  split; [left|]. split; reflexivity.
Qed.

(** The indexer pairs of a key held by two rows of [A] and one of [B]. *)
Lemma duplicate_key_indexers A B k i1 i2 j :
  key_positions 0 k A = [i1; i2] →
  key_positions 0 k B = [j] →
  filter (λ ix, merge_key (awb_number (merged_row A B ix)) = merge_key k)
         (outer_join A B)
    ≡ₚ [(Some i1, Some j); (Some i2, Some j)].
Proof.
  intros HA HB.
  assert (∀ i, i ∈ [i1; i2] ↔
               ∃ a, A !! i = Some a ∧ merge_key (awb a) = merge_key k) as HinA.
  { intros i. rewrite <-HA, key_positions_elem. setoid_rewrite Nat.sub_0_r.
    split; [intros (a & _ & ?); by exists a|intros (a & ?)].
    exists a. split; [lia|done]. }
  assert (∀ j', j' ∈ [j] ↔
                ∃ b, B !! j' = Some b ∧ merge_key (awb b) = merge_key k) as HinB.
  { intros j'. rewrite <-HB, key_positions_elem. setoid_rewrite Nat.sub_0_r.
    split; [intros (b & _ & ?); by exists b|intros (b & ?)].
    exists b. split; [lia|done]. }
  assert (i1 ≠ i2) as Hne.
  { pose proof (key_positions_NoDup 0 k A) as Hnd. rewrite HA in Hnd.
    apply NoDup_cons in Hnd as [Hnd _]. intros ->. apply Hnd. by left. }
  destruct (proj1 (HinB j)) as (b0 & Hb0 & Hkb0); [by left|].
  assert (∀ i, i ∈ [i1; i2] → ∃ a, A !! i = Some a ∧
                                   merge_key (awb a) = merge_key k) as HgetA
    by (intros i; apply HinA).
  apply NoDup_Permutation.
  - apply NoDup_filter, outer_join_NoDup.
  - apply NoDup_cons. split; [|apply NoDup_singleton].
    intros [= ?]%list_elem_of_singleton. done.
  - intros ix. rewrite list_elem_of_filter, outer_join_elem. split.
    + intros [Hk Hix]. destruct ix as [[i|] [j'|]]; try done.
      * destruct Hix as (a & b & Ha & Hb & Hab).
        unfold merged_row in Hk;
          cbn [fst snd awb_number mbind option_bind] in Hk.
        rewrite Ha in Hk.
        assert (i ∈ [i1; i2]) as Hi by (apply HinA; by exists a).
        assert (j' ∈ [j]) as Hj.
        { apply HinB. exists b. split; [done|]. by rewrite <-Hab. }
        apply list_elem_of_singleton in Hj as ->.
        apply elem_of_cons in Hi as [->|Hi]; [by left|].
        apply list_elem_of_singleton in Hi as ->. right; by left.
      * destruct Hix as (a & Ha & Hn).
        unfold merged_row in Hk;
          cbn [fst snd awb_number mbind option_bind] in Hk.
        rewrite Ha in Hk. exfalso. apply (Hn b0).
        { by eapply list_elem_of_lookup_2. }
        by rewrite Hk.
      * destruct Hix as (b & Hb & Hn).
        unfold merged_row in Hk;
          cbn [fst snd awb_number mbind option_bind] in Hk.
        rewrite Hb in Hk. exfalso.
        destruct (HgetA i1) as (a1 & Ha1 & Hka1); [by left|].
        apply (Hn a1); [by eapply list_elem_of_lookup_2|]. by rewrite Hk.
    + intros Hix.
      assert (∃ i, ix = (Some i, Some j) ∧ i ∈ [i1; i2]) as (i & -> & Hi).
      { apply elem_of_cons in Hix as [->|Hix]; [exists i1; split; [done|by left]|].
        apply list_elem_of_singleton in Hix as ->.
        exists i2. split; [done|]. right; by left. }
      destruct (HgetA i Hi) as (a & Ha & Hka).
      unfold merged_row; cbn [fst snd awb_number mbind option_bind].
      rewrite Ha. split; [done|]. exists a, b0. by rewrite Hka, Hkb0.
Qed.

(** The rows that a key selects are the rows at the positions of the
    key. *)
Lemma key_positions_filter j k l :
  Forall2 (λ i r, j ≤ i ∧ l !! (i - j) = Some r)
          (key_positions j k l) (filter (λ r, same_key (awb r) k = true) l).
Proof.
  revert j. induction l as [|r l IH]; intros j; simpl; [constructor|].
  rewrite filter_cons.
  assert (∀ i r', S j ≤ i ∧ l !! (i - S j) = Some r' →
                  j ≤ i ∧ (r :: l) !! (i - j) = Some r') as Hshift.
  { intros i r' [Hi Hl]. split; [lia|].
    by replace (i - j) with (S (i - S j)) by lia. }
  destruct (decide (merge_key (awb r) = merge_key k)) as [Hk|Hk].
  - rewrite decide_True by (by apply same_key_merge_key).
    constructor; [by rewrite Nat.sub_diag|].
    eapply Forall2_impl; [apply IH|done].
  - rewrite decide_False by (by rewrite same_key_merge_key).
    eapply Forall2_impl; [apply IH|done].
Qed.

(** C7. When a key is held by exactly two rows of file 1, [a1] and
    [a2], and by exactly one row [b] of file 2, a comparison that returns
    has exactly two rows for that key, both in the matched frame: one
    pairs [a1] with [b], the other pairs [a2] with [b]. *)
Theorem duplicate_key_cross_product p1 p2 w A B m u mp up w' k a1 a2 b :
  dataset "File 1" p1 w = Some A → dataset "File 2" p2 w = Some B →
  compare_excel_files p1 p2 w = (inr (Some (m, u, mp, up)), w') →
  filter (λ r, same_key (awb r) k = true) A = [a1; a2] →
  filter (λ r, same_key (awb r) k = true) B = [b] →
  ∃ d1 d2,
    filter (λ row, same_key (row_key row) k = true) (rows m)
      ≡ₚ [[awb a1; weight a1; weight b; d1];
          [awb a2; weight a2; weight b; d2]] ∧
    filter (λ row, same_key (row_key row) k = true) (rows u) = [].
Proof.
  intros HA HB Hrun HfA HfB.
  destruct (compare_excel_files_frames _ _ _ _ _ _ _ _ _ _ HA HB Hrun)
    as [Hm Hu].
  pose proof (key_positions_filter 0 k A) as HpA. rewrite HfA in HpA.
  pose proof (key_positions_filter 0 k B) as HpB. rewrite HfB in HpB.
  pose proof (Forall2_length _ _ _ HpA) as HlA.
  pose proof (Forall2_length _ _ _ HpB) as HlB.
  destruct (key_positions 0 k A) as [|i1 [|i2 [|]]] eqn:EA; try done.
  destruct (key_positions 0 k B) as [|j [|]] eqn:EB; try done.
  apply Forall2_cons in HpA as [[_ Ha1] [[_ Ha2] _]%Forall2_cons].
  apply Forall2_cons in HpB as [[_ Hb] _].
  rewrite Nat.sub_0_r in Ha1, Ha2, Hb.
  pose proof (duplicate_key_indexers A B k i1 i2 j EA EB) as Hixs.
  assert (∀ ix, same_key (row_key (result_row A B ix)) k = true ↔
                merge_key (awb_number (merged_row A B ix)) = merge_key k)
    as Hkey by (intros ix; apply same_key_merge_key).
  eexists _, _. split.
  - rewrite Hm, filter_fmap_comm, list_filter_filter.
    rewrite (list_filter_iff _
               (λ ix, indicator_of ix = both ∧
                      merge_key (awb_number (merged_row A B ix)) = merge_key k))
      by (intros ix; rewrite Hkey; tauto).
    rewrite <-list_filter_filter, Hixs.
    rewrite !filter_cons, filter_nil. cbn [indicator_of].
    rewrite !decide_True, !fmap_cons, fmap_nil by done.
    unfold result_row, merged_row.
    cbn [fst snd merged with_diff awb_number weight_file1 weight_file2
         weight_diff mbind option_bind].
    rewrite Ha1, Ha2, Hb. cbn [from_option]. reflexivity.
  - apply Permutation_nil_r.
    rewrite Hu, filter_fmap_comm, list_filter_filter.
    rewrite (list_filter_iff _
               (λ ix, indicator_of ix ≠ both ∧
                      merge_key (awb_number (merged_row A B ix)) = merge_key k))
      by (intros ix; rewrite Hkey; tauto).
    rewrite <-list_filter_filter, Hixs.
    rewrite !filter_cons, filter_nil. cbn [indicator_of].
    by rewrite !decide_False by (by intros []).
Qed.

Lemma duplicate_key_cross_product_witness :
  ∃ m u w',
    dataset "File 1" "uploads/c.xlsx" Scenario.uploads = Some Scenario.A_dup ∧
    dataset "File 2" "uploads/d.xlsx" Scenario.uploads = Some Scenario.B_one ∧
    compare_excel_files "uploads/c.xlsx" "uploads/d.xlsx" Scenario.uploads
      = (inr (Some (m, u, matching_path, mismatching_path)), w') ∧
    filter (λ r, same_key (awb r) (CText "100") = true) Scenario.A_dup
      = [mkRec (CText "100") (Scenario.num 5);
         mkRec (CText "100") (Scenario.num 7)] ∧
    filter (λ r, same_key (awb r) (CText "100") = true) Scenario.B_one
      = [mkRec (CText "100") (Scenario.num 6)] ∧
    ∃ d1 d2,
      filter (λ row, same_key (row_key row) (CText "100") = true) (rows m)
        ≡ₚ [[CText "100"; Scenario.num 5; Scenario.num 6; d1];
            [CText "100"; Scenario.num 7; Scenario.num 6; d2]] ∧
      filter (λ row, same_key (row_key row) (CText "100") = true) (rows u) = [].
Proof.
  eexists _, _, _.
  split; [vm_compute; reflexivity|]. split; [vm_compute; reflexivity|].
  split; [apply pair_eq; [vm_compute; reflexivity|reflexivity]|].
  split; [vm_compute; reflexivity|]. split; [vm_compute; reflexivity|].
  eapply (duplicate_key_cross_product
            "uploads/c.xlsx" "uploads/d.xlsx" Scenario.uploads
            Scenario.A_dup Scenario.B_one _ _ _ _ _ (CText "100")
            (mkRec (CText "100") (Scenario.num 5))
            (mkRec (CText "100") (Scenario.num 7))
            (mkRec (CText "100") (Scenario.num 6)));
    [vm_compute; reflexivity | vm_compute; reflexivity
    | apply pair_eq; [vm_compute; reflexivity|reflexivity]
    | vm_compute; reflexivity | vm_compute; reflexivity].
Defined.

End reconciliation.

(** ** The whole comparison and the downloads *)

Section operation.
Import Pandas Relational App Frames.

(** C5. When the load of either input fails (the file is missing or is
    no workbook, or a required column is missing), the comparison
    returns the four [None], prints the error of that load, which is
    raised before the merge, and leaves every file as it was: neither
    artifact is written. *)
Theorem load_failure_writes_nothing p1 p2 w e :
  (load "File 1" p1 w).1 = inl e ∨ (load "File 2" p2 w).1 = inl e →
  ∃ e', ((load "File 1" p1 w).1 = inl e' ∨ (load "File 2" p2 w).1 = inl e') ∧
    compare_excel_files p1 p2 w = (inr None, with_line (error_line e') w) ∧
    fs (compare_excel_files p1 p2 w).2 = fs w.
Proof.
  intros H. destruct (prepare_load_failure _ _ _ _ H) as (e' & He' & Hp).
  exists e'. split; [done|]. by rewrite compare_excel_files_run, Hp.
Qed.

Lemma load_failure_writes_nothing_witness :
  let no_weight := mkDataFrame ["AWB number"] [[CText "100"]] in
  let w := with_file "uploads/bad.xlsx" (Workbook no_weight) Scenario.uploads in
  ∃ e e',
    (load "File 2" "uploads/bad.xlsx" w).1 = inl e ∧
    ((load "File 1" "uploads/a.xlsx" w).1 = inl e'
     ∨ (load "File 2" "uploads/bad.xlsx" w).1 = inl e') ∧
    compare_excel_files "uploads/a.xlsx" "uploads/bad.xlsx" w
      = (inr None, with_line (error_line e') w) ∧
    fs (compare_excel_files "uploads/a.xlsx" "uploads/bad.xlsx" w).2 = fs w.
Proof.
  intros no_weight w. eexists.
  assert ((load "File 2" "uploads/bad.xlsx" w).1
          = inl (ValueError (missing_columns_message "File 2"))) as Hload
    by (vm_compute; reflexivity).
  destruct (load_failure_writes_nothing "uploads/a.xlsx" "uploads/bad.xlsx" w _
              (or_intror Hload)) as (e' & He' & Hrun).
  exists e'. split; [exact Hload|]. split; [exact He'|exact Hrun].
Defined.

(** What a comparison does to the files: nothing, or both writes, or,
    when the second path cannot be written, the first write alone. *)
Lemma compare_excel_files_writes p1 p2 w :
  let run := compare_excel_files p1 p2 w in
  (run.1 = inr None ∧ fs run.2 = fs w) ∨
  (∃ m u, run.1 = inr (Some (m, u, matching_path, mismatching_path)) ∧
          fs run.2 = <[mismatching_path := Workbook u]>
                       (<[matching_path := Workbook m]> (fs w))) ∨
  (∃ m, run.1 = inr None ∧ mismatching_path ∈ readonly w ∧
        fs run.2 = <[matching_path := Workbook m]> (fs w)).
Proof.
  cbv zeta. rewrite compare_excel_files_run.
  destruct (prepare p1 p2 w).1 as [e|[m u]]; [by left|].
  destruct (decide (matching_path ∈ readonly w)); [by left|].
  destruct (decide (mismatching_path ∈ readonly w)).
  - right; right. by exists m.
  - right; left. by exists m, u.
Qed.

(** The join skips no row of either frame, whatever its weight. *)
Lemma outer_join_keeps_left A B i a :
  A !! i = Some a → ∃ o, (Some i, o) ∈ outer_join A B.
Proof.
  intros Ha. destruct (key_positions 0 (awb a) B) as [|j js] eqn:E.
  - exists None. apply outer_join_elem. exists a. split; [done|].
    by apply key_positions_nil.
  - exists (Some j). apply outer_join_elem.
    assert (j ∈ key_positions 0 (awb a) B) as Hj by (rewrite E; left).
    apply key_positions_elem in Hj as (b & _ & Hb & Hk).
    rewrite Nat.sub_0_r in Hb. by exists a, b.
Qed.

Lemma outer_join_keeps_right A B j b :
  B !! j = Some b → ∃ o, (o, Some j) ∈ outer_join A B.
Proof.
  intros Hb. destruct (key_positions 0 (awb b) A) as [|i ls] eqn:E.
  - exists None. apply outer_join_elem. exists b. split; [done|].
    by apply key_positions_nil.
  - exists (Some i). apply outer_join_elem.
    assert (i ∈ key_positions 0 (awb b) A) as Hi by (rewrite E; left).
    apply key_positions_elem in Hi as (a & _ & Ha & Hk).
    rewrite Nat.sub_0_r in Ha. by exists a, b.
Qed.

(** A merge that returns has passed the check of the key columns and
    returns the rows of the outer join. *)
Lemma merge_inr left right w A B merged_df w' :
  records left = Some A → records right = Some B →
  merge left right w = (inr merged_df, w') →
  incompatible_keys (awb <$> A) (awb <$> B) = false ∧
  merged_df = merged_row A B <$> outer_join A B.
Proof.
  intros HA HB. unfold merge. rewrite HA, HB.
  destruct (incompatible_keys _ _); [done|]. by intros [= <- <-].
Qed.

(** C6, as the program has it.  Parsing does not look at the cells: a
    sheet with both required labels parses whatever its weight column
    holds, and a merge that returns skips no row of either file and
    carries every weight, text or number, into the merged frame.  When
    the merge goes through, a text weight in a row whose key the other
    file has too, next to a weight that is present, makes the subtraction
    raise [TypeError]; the comparison then returns the four [None], prints
    that error and writes nothing. *)
Theorem text_weight_type_error :
  (∀ label raw w,
     missing_columns (normalize_columns raw) = [] →
     parse label raw w =
       (inr (select_columns ["awb number"; "weight"] (normalize_columns raw)), w)) ∧
  (∀ left right w A B merged_df w',
     records left = Some A → records right = Some B →
     merge left right w = (inr merged_df, w') →
     (∀ a, a ∈ A →
        ∃ r, r ∈ merged_df ∧ awb_number r = awb a ∧ weight_file1 r = weight a) ∧
     (∀ b, b ∈ B →
        ∃ r, r ∈ merged_df ∧ same_key (awb_number r) (awb b) = true
             ∧ weight_file2 r = weight b)) ∧
  (∀ p1 p2 w A B i j a b,
     dataset "File 1" p1 w = Some A → dataset "File 2" p2 w = Some B →
     incompatible_keys (awb <$> A) (awb <$> B) = false →
     A !! i = Some a → B !! j = Some b →
     same_key (awb a) (awb b) = true →
     isna (weight a) = false → isna (weight b) = false →
     (∃ s, weight a = CText s) ∨ (∃ s, weight b = CText s) →
     compare_excel_files p1 p2 w
       = (inr None, with_line (error_line unsupported_sub) w) ∧
     fs (compare_excel_files p1 p2 w).2 = fs w).
Proof.
  split.
  { intros label raw w Hm.
    by rewrite parse_missing_columns, decide_True. }
  split.
  { intros left right w A B merged_df w' HA HB Hrun.
    destruct (merge_inr _ _ _ _ _ _ _ HA HB Hrun) as [_ ->]. split.
    - intros a [i Ha]%list_elem_of_lookup.
      destruct (outer_join_keeps_left A B i a Ha) as [o Hin].
      exists (merged_row A B (Some i, o)).
      split; [by apply list_elem_of_fmap_2|].
      unfold merged_row; cbn [fst snd awb_number weight_file1 mbind option_bind].
      by rewrite Ha.
    - intros b [j Hb]%list_elem_of_lookup.
      destruct (outer_join_keeps_right A B j b Hb) as [o Hin].
      exists (merged_row A B (o, Some j)).
      split; [by apply list_elem_of_fmap_2|].
      apply outer_join_elem in Hin.
      unfold merged_row;
        cbn [fst snd awb_number weight_file2 mbind option_bind].
      rewrite Hb. destruct o as [i|]; cbn [mbind option_bind from_option].
      + destruct Hin as (a & b' & Ha & Hb' & Hk). rewrite Ha.
        rewrite Hb in Hb'. injection Hb' as <-.
        split; [by apply same_key_merge_key|done].
      + split; [by apply same_key_merge_key|done]. }
  intros p1 p2 w A B i j a b HA HB Hkeys Ha Hb Hk Hna Hnb Htext.
  apply same_key_merge_key in Hk.
  assert ((Some i, Some j) ∈ outer_join A B) as Hin.
  { apply outer_join_elem. by exists a, b. }
  rewrite compare_excel_files_run, (prepare_datasets _ _ _ A B), Hkeys by done.
  rewrite mapM_abs_diff_inl; [done|].
  apply Exists_exists. exists (merged_row A B (Some i, Some j)).
  split; [by apply list_elem_of_fmap_2|].
  unfold merged_row; cbn [fst snd weight_file1 weight_file2 mbind option_bind].
  rewrite Ha, Hb. cbn [from_option]. exists unsupported_sub.
  unfold diff_cell.
  destruct Htext as [[s Hs]|[s Hs]]; rewrite Hs in *.
  - destruct (weight b) as [y|t]; [|done]. by rewrite Hnb.
  - destruct (weight a) as [x|t]; [|done]. by rewrite Hna.
Qed.

Lemma text_weight_type_error_witness :
  dataset "File 1" "uploads/t.xlsx" Scenario.uploads = Some Scenario.A_text ∧
  dataset "File 2" "uploads/b.xlsx" Scenario.uploads = Some Scenario.B ∧
  incompatible_keys (awb <$> Scenario.A_text) (awb <$> Scenario.B) = false ∧
  compare_excel_files "uploads/t.xlsx" "uploads/b.xlsx" Scenario.uploads
    = (inr None, with_line (error_line unsupported_sub) Scenario.uploads) ∧
  fs (compare_excel_files "uploads/t.xlsx" "uploads/b.xlsx" Scenario.uploads).2
    = fs Scenario.uploads.
Proof.
  split; [vm_compute; reflexivity|]. split; [vm_compute; reflexivity|].
  split; [vm_compute; reflexivity|].
  apply (proj2 (proj2 text_weight_type_error)
           "uploads/t.xlsx" "uploads/b.xlsx" Scenario.uploads
           Scenario.A_text Scenario.B 0 0
           (mkRec (CText "100") (CText "abc"))
           (mkRec (CText "100") (Scenario.num 5)));
    try (vm_compute; reflexivity).
  left. by exists "abc"%string.
Defined.

(** C6, as the specification states it, fails: the sheet whose only
    weight is the text ["abc"] parses, the text is in the parsed dataset,
    and [pd.merge] puts it into the merged frame. *)
Lemma text_weight_counterexample :
  let raw := Scenario.sheet "AWB number" "Weight" Scenario.A_text in
  let parsed := mkDataFrame ["awb number"; "weight"] [[CText "100"; CText "abc"]] in
  read_excel "uploads/t.xlsx" Scenario.uploads = (inr raw, Scenario.uploads) ∧
  parse "File 1" raw Scenario.uploads = (inr parsed, Scenario.uploads) ∧
  records parsed = Some [mkRec (CText "100") (CText "abc")] ∧
  ∃ merged_df,
    (merge parsed (Scenario.sheet "awb number" "weight" Scenario.B)
           Scenario.uploads).1 = inr merged_df ∧
    mkMergedRow (CText "100") (CText "abc") (Scenario.num 5) both ∈ merged_df.
Proof.
  split; [apply pair_eq; [vm_compute; reflexivity|reflexivity]|].
  split; [apply pair_eq; [vm_compute; reflexivity|reflexivity]|].
  split; [vm_compute; reflexivity|].
  eexists. split; [vm_compute; reflexivity|left].
Qed.

Lemma download_file_run filename w :
  download_file filename w =
  (match fs w !! OsPath.resolve (OsPath.join PROCESSED_FOLDER filename) with
   | Some f => inr f
   | None =>
       inl (OSError ("[Errno 2] No such file or directory: '"
                       ++ OsPath.join PROCESSED_FOLDER filename ++ "'")%string)
   end, w).
Proof.
  unfold download_file, send_file, read_file.
  by destruct (fs w !! _).
Qed.

(** C8, as the program has it.  A download for which the processed
    folder holds no file ends with the [OSError] of the file system, which
    nothing handles: the answer is the server error, and no download is
    ever answered [NotFound]. *)
Theorem download_missing_file_is_server_error filename w :
  fs w !! OsPath.resolve (OsPath.join PROCESSED_FOLDER filename) = None →
  respond (download_file filename) w =
    InternalServerError
      (OSError ("[Errno 2] No such file or directory: '"
                  ++ OsPath.join PROCESSED_FOLDER filename ++ "'")%string) ∧
  ∀ filename' w', respond (download_file filename') w' ≠ NotFound.
Proof.
  intros Hnone. split.
  - unfold respond. by rewrite download_file_run, Hnone.
  - intros filename' w'. unfold respond. rewrite download_file_run.
    by destruct (fs w' !! _).
Qed.

Lemma download_missing_file_is_server_error_witness :
  fs Scenario.uploads
    !! OsPath.resolve (OsPath.join PROCESSED_FOLDER "unknown.xlsx") = None ∧
  respond (download_file "unknown.xlsx") Scenario.uploads =
    InternalServerError
      (OSError "[Errno 2] No such file or directory: 'processed/unknown.xlsx'") ∧
  ∀ filename' w', respond (download_file filename') w' ≠ NotFound.
Proof.
  split; [vm_compute; reflexivity|].
  apply (download_missing_file_is_server_error "unknown.xlsx" Scenario.uploads).
  vm_compute; reflexivity.
Defined.

(** C8, as the specification states it, fails: before any comparison the
    processed folder is empty, and the download of an artifact is
    answered with the server error, not with [NotFound]. *)
Lemma download_not_found_counterexample :
  fs Scenario.uploads !! matching_path = None ∧
  fs Scenario.uploads !! mismatching_path = None ∧
  respond (download_file "matching_awb_numbers.xlsx") Scenario.uploads =
    InternalServerError
      (OSError "[Errno 2] No such file or directory: 'processed/matching_awb_numbers.xlsx'") ∧
  respond (download_file "matching_awb_numbers.xlsx") Scenario.uploads ≠ NotFound.
Proof.
  split; [vm_compute; reflexivity|]. split; [vm_compute; reflexivity|].
  split; [vm_compute; reflexivity|]. by vm_compute.
Qed.




(** C10. The download serves whatever file the path made of the
    processed folder and the given name resolves to: the name is not
    compared with the names of the artifacts and a [..] in it is
    followed.  So the name [notes.txt] makes it serve a file of the
    processed folder that is no artifact, and the name [../app.py] the
    source of the program. *)
Theorem download_serves_any_file :
  (∀ filename w f,
     fs w !! OsPath.resolve (OsPath.join PROCESSED_FOLDER filename) = Some f →
     respond (download_file filename) w = Attachment f) ∧
  (∃ filename w f,
     (filename ∉ artifact_names) ∧ (∀ df, f ≠ Workbook df) ∧
     respond (download_file filename) w = Attachment f) ∧
  (∃ filename w f,
     (filename ∉ artifact_names) ∧
     (OsPath.join PROCESSED_FOLDER filename = "processed/../app.py"%string) ∧
     (OsPath.resolve (OsPath.join PROCESSED_FOLDER filename) = "app.py"%string) ∧
     (∀ df, f ≠ Workbook df) ∧
     respond (download_file filename) w = Attachment f).
Proof.
  assert (∀ name : string,
            name ≠ "matching_awb_numbers.xlsx"%string →
            name ≠ "mismatching_awb_numbers.xlsx"%string →
            name ∉ artifact_names) as Hnot.
  { unfold artifact_names. intros name H1 H2 Hin.
    repeat (apply elem_of_cons in Hin as [Hin|Hin]; [done|]).
    by apply elem_of_nil in Hin. }
  split; [|split].
  - intros filename w f Hf. unfold respond.
    by rewrite download_file_run, Hf.
  - exists "notes.txt"%string, Scenario.uploads, (Blob "left here by hand").
    split; [by apply Hnot|]. split; [done|]. vm_compute; reflexivity.
  - exists "../app.py"%string, Scenario.uploads, (Blob "from flask import Flask").
    split; [by apply Hnot|].
    split; [vm_compute; reflexivity|].
    split; [vm_compute; reflexivity|]. split; [done|].
    vm_compute; reflexivity.
Qed.

Lemma download_serves_any_file_witness :
  fs Scenario.uploads
    !! OsPath.resolve (OsPath.join PROCESSED_FOLDER "../uploads/a.xlsx")
    = Some (Workbook (Scenario.sheet "AWB Number" " Weight " Scenario.A)) ∧
  respond (download_file "../uploads/a.xlsx") Scenario.uploads
    = Attachment (Workbook (Scenario.sheet "AWB Number" " Weight " Scenario.A)).
Proof.
  split; [vm_compute; reflexivity|].
  apply (proj1 download_serves_any_file "../uploads/a.xlsx" Scenario.uploads).
  vm_compute; reflexivity.
Defined.

End operation.

(** ** More on the frames of a comparison *)

(** A run of a scenario: the value by computation, the world as it is. *)
Ltac scenario_run := apply pair_eq; [vm_compute; reflexivity|reflexivity].
Ltac scenario_value := vm_compute; reflexivity.

Section frames_more.
Import Pandas Relational App Frames.

Lemma result_row_nth0 A B ix :
  nth 0 (result_row A B ix) NaN = awb_number (merged_row A B ix).
Proof. done. Qed.

Lemma merged_row_pair A B i j a b :
  A !! i = Some a → B !! j = Some b →
  merged_row A B (Some i, Some j) = mkMergedRow (awb a) (weight a) (weight b) both.
Proof.
  intros Ha Hb. unfold merged_row; cbn [fst snd mbind option_bind].
  by rewrite Ha, Hb.
Qed.

Lemma merged_row_left A B i a :
  A !! i = Some a →
  merged_row A B (Some i, None) = mkMergedRow (awb a) (weight a) NaN left_only.
Proof.
  intros Ha. unfold merged_row; cbn [fst snd mbind option_bind].
  by rewrite Ha.
Qed.

Lemma merged_row_right A B j b :
  B !! j = Some b →
  merged_row A B (None, Some j) = mkMergedRow (awb b) NaN (weight b) right_only.
Proof.
  intros Hb. unfold merged_row; cbn [fst snd mbind option_bind].
  by rewrite Hb.
Qed.

(** X1. In a comparison that returns, a key has a row in the matched
    frame exactly when both files have it, and a row in the unmatched
    frame exactly when one file has it and the other has not; the weights
    play no part. *)
Theorem frames_by_key p1 p2 w A B m u mp up w' k :
  dataset "File 1" p1 w = Some A → dataset "File 2" p2 w = Some B →
  compare_excel_files p1 p2 w = (inr (Some (m, u, mp, up)), w') →
  ((∃ row, row ∈ rows m ∧ merge_key (row_key row) = merge_key k)
     ↔ has_key k A ∧ has_key k B) ∧
  ((∃ row, row ∈ rows u ∧ merge_key (row_key row) = merge_key k)
     ↔ (has_key k A ∧ ¬ has_key k B) ∨ (¬ has_key k A ∧ has_key k B)).
Proof.
  intros HA HB Hrun.
  destruct (compare_excel_files_frames _ _ _ _ _ _ _ _ _ _ HA HB Hrun)
    as [Hm Hu].
  rewrite Hm, Hu. unfold row_key, has_key. split; split.
  - intros (row & (ix & -> & [Hb Hin]%list_elem_of_filter)%list_elem_of_fmap & Hk).
    apply outer_join_elem in Hin. destruct ix as [[i|] [j|]]; try done.
    destruct Hin as (a & b & Ha & Hb' & Hab).
    rewrite result_row_nth0, (merged_row_pair _ _ _ _ _ _ Ha Hb') in Hk.
    cbn [awb_number] in Hk. split.
    + exists a. split; [by eapply list_elem_of_lookup_2|done].
    + exists b. split; [by eapply list_elem_of_lookup_2|]. by rewrite <-Hab.
  - intros [(a & [i Ha]%list_elem_of_lookup & Hka)
            (b & [j Hb]%list_elem_of_lookup & Hkb)].
    exists (result_row A B (Some i, Some j)). split.
    + apply list_elem_of_fmap_2, list_elem_of_filter. split; [done|].
      apply outer_join_elem. exists a, b. by rewrite Hka, Hkb.
    + by rewrite result_row_nth0, (merged_row_pair _ _ _ _ _ _ Ha Hb).
  - intros (row & (ix & -> & [Hb Hin]%list_elem_of_filter)%list_elem_of_fmap & Hk).
    apply outer_join_elem in Hin. destruct ix as [[i|] [j|]]; try done.
    + destruct Hin as (a & Ha & Hn).
      rewrite result_row_nth0, (merged_row_left _ _ _ _ Ha) in Hk.
      cbn [awb_number] in Hk. left. split.
      * exists a. split; [by eapply list_elem_of_lookup_2|done].
      * intros (b & Hb' & Hkb). apply (Hn b Hb'). by rewrite Hkb.
    + destruct Hin as (b & Hb' & Hn).
      rewrite result_row_nth0, (merged_row_right _ _ _ _ Hb') in Hk.
      cbn [awb_number] in Hk. right. split.
      * intros (a & Ha & Hka). apply (Hn a Ha). by rewrite Hka.
      * exists b. split; [by eapply list_elem_of_lookup_2|done].
  - intros [[(a & [i Ha]%list_elem_of_lookup & Hka) Hn]
           |[Hn (b & [j Hb]%list_elem_of_lookup & Hkb)]].
    + exists (result_row A B (Some i, None)). split.
      * apply list_elem_of_fmap_2, list_elem_of_filter. split; [done|].
        apply outer_join_elem. exists a. split; [done|].
        intros b Hb Hkb. apply Hn. exists b. split; [done|]. by rewrite Hkb.
      * by rewrite result_row_nth0, (merged_row_left _ _ _ _ Ha).
    + exists (result_row A B (None, Some j)). split.
      * apply list_elem_of_fmap_2, list_elem_of_filter. split; [done|].
        apply outer_join_elem. exists b. split; [done|].
        intros a Ha Hka. apply Hn. exists a. split; [done|]. by rewrite Hka.
      * by rewrite result_row_nth0, (merged_row_right _ _ _ _ Hb).
Qed.

Lemma frames_by_key_witness :
  ∃ m u w',
    dataset "File 1" "uploads/a.xlsx" Scenario.uploads = Some Scenario.A ∧
    dataset "File 2" "uploads/b.xlsx" Scenario.uploads = Some Scenario.B ∧
    compare_excel_files "uploads/a.xlsx" "uploads/b.xlsx" Scenario.uploads
      = (inr (Some (m, u, matching_path, mismatching_path)), w') ∧
    ((∃ row, row ∈ rows m ∧ merge_key (row_key row) = merge_key (CText "100"))
       ↔ has_key (CText "100") Scenario.A ∧ has_key (CText "100") Scenario.B) ∧
    ((∃ row, row ∈ rows u ∧ merge_key (row_key row) = merge_key (CText "100"))
       ↔ (has_key (CText "100") Scenario.A ∧ ¬ has_key (CText "100") Scenario.B)
         ∨ (¬ has_key (CText "100") Scenario.A ∧ has_key (CText "100") Scenario.B)).
Proof.
  eexists _, _, _.
  split; [scenario_value|]. split; [scenario_value|].
  split; [scenario_run|].
  eapply (frames_by_key "uploads/a.xlsx" "uploads/b.xlsx" Scenario.uploads
            Scenario.A Scenario.B);
    [scenario_value | scenario_value | scenario_run].
Defined.

(** The rows of both frames are output rows of indexer pairs of the
    join. *)
Lemma frame_rows_inv p1 p2 w A B m u mp up w' row :
  dataset "File 1" p1 w = Some A → dataset "File 2" p2 w = Some B →
  compare_excel_files p1 p2 w = (inr (Some (m, u, mp, up)), w') →
  row ∈ rows m ∨ row ∈ rows u →
  ∃ ix, joins A B ix ∧ row = result_row A B ix ∧
        (row ∈ rows m → indicator_of ix = both).
Proof.
  intros HA HB Hrun Hrow.
  destruct (compare_excel_files_frames _ _ _ _ _ _ _ _ _ _ HA HB Hrun)
    as [Hm Hu].
  assert (∀ row, row ∈ rows m → row ∉ rows u) as Hdisj.
  { intros r. rewrite Hm, Hu, !list_elem_of_fmap.
    intros (ix & -> & [Hb Hin]%list_elem_of_filter)
           (ix' & Heq & [Hnb Hin']%list_elem_of_filter).
    revert Heq. apply result_row_both_not_both; [| |done..];
      by apply outer_join_elem. }
  destruct Hrow as [Hrow|Hrow].
  - pose proof Hrow as Hrow'. rewrite Hm in Hrow'.
    apply list_elem_of_fmap in Hrow' as (ix & -> & [Hb Hin]%list_elem_of_filter).
    exists ix. split; [by apply outer_join_elem|done].
  - pose proof Hrow as Hrow'. rewrite Hu in Hrow'.
    apply list_elem_of_fmap in Hrow' as (ix & -> & [Hb Hin]%list_elem_of_filter).
    exists ix. split; [by apply outer_join_elem|]. split; [done|].
    intros Hm'. by destruct (Hdisj _ Hm').
Qed.

Lemma float64_sub_diag x :
  is_finite x = true → SFabs (float64_sub x x) = S754_zero false.
Proof.
  destruct x as [[]|[]| |s m e]; try done. intros _.
  unfold float64_sub, SFsub. by rewrite Z.sub_diag.
Qed.

(** X2. In a comparison that returns, a matched row whose two weights are
    the same finite number has [weight_diff] zero. *)
Theorem equal_weights_zero_diff p1 p2 w A B m u mp up w' k x d :
  dataset "File 1" p1 w = Some A → dataset "File 2" p2 w = Some B →
  compare_excel_files p1 p2 w = (inr (Some (m, u, mp, up)), w') →
  [k; CNum x; CNum x; d] ∈ rows m →
  is_finite x = true →
  d = CNum (S754_zero false).
Proof.
  intros HA HB Hrun Hrow Hfin.
  destruct (frame_rows_inv _ _ _ _ _ _ _ _ _ _ _ HA HB Hrun (or_introl Hrow))
    as (ix & _ & Heq & _).
  unfold result_row, with_diff in Heq. cbn [merged weight_diff] in Heq.
  injection Heq as _ H1 H2 ->. rewrite <-H1, <-H2.
  unfold diff_cell. by rewrite float64_sub_diag.
Qed.

Lemma equal_weights_zero_diff_witness :
  ∃ m u w' d,
    dataset "File 1" "uploads/a.xlsx" Scenario.uploads = Some Scenario.A ∧
    dataset "File 2" "uploads/b.xlsx" Scenario.uploads = Some Scenario.B ∧
    compare_excel_files "uploads/a.xlsx" "uploads/b.xlsx" Scenario.uploads
      = (inr (Some (m, u, matching_path, mismatching_path)), w') ∧
    [CText "100"; Scenario.num 5; Scenario.num 5; d] ∈ rows m ∧
    is_finite (float64_of_Z 5) = true ∧
    d = CNum (S754_zero false).
Proof.
  eexists _, _, _, _.
  split; [scenario_value|]. split; [scenario_value|].
  split; [scenario_run|].
  split; [left|]. split; [scenario_value|].
  eapply (equal_weights_zero_diff
            "uploads/a.xlsx" "uploads/b.xlsx" Scenario.uploads
            Scenario.A Scenario.B _ _ _ _ _ (CText "100") (float64_of_Z 5));
    [scenario_value | scenario_value | scenario_run | left | scenario_value].
Defined.




Lemma key_count_zero k A :
  merge_key k ∉ (λ r, merge_key (awb r)) <$> A → key_count k A = 0.
Proof.
  intros Hn. unfold key_count. induction A as [|a A IH]; [done|].
  rewrite fmap_cons, not_elem_of_cons in Hn. destruct Hn as [Hne Hn].
  rewrite filter_cons_False by (intros ?; by apply Hne). by apply IH.
Qed.

Lemma key_count_unique k A : unique_keys A → key_count k A ≤ 1.
Proof.
  unfold unique_keys. induction A as [|a A IH]; [unfold key_count; simpl; lia|].
  rewrite fmap_cons, NoDup_cons. intros [Hn Hnd].
  rewrite key_count_cons. destruct (decide _) as [Heq|Hne].
  - rewrite Heq in Hn. rewrite (key_count_zero _ _ Hn). lia.
  - specialize (IH Hnd). lia.
Qed.

Lemma key_count_elem r A : r ∈ A → 1 ≤ key_count (merge_key (awb r)) A.
Proof.
  intros Hr. unfold key_count.
  assert (r ∈ filter (λ r', merge_key (awb r') = merge_key (merge_key (awb r))) A)
    as Hin by (apply list_elem_of_filter; by rewrite merge_key_idemp).
  destruct (filter _ A); [by apply elem_of_nil in Hin|simpl; lia].
Qed.

(** X4. When no key is repeated within either file, a comparison that
    returns has exactly one row for every key of the key universe: the
    sizes of the two frames add up to the number of distinct keys. *)
Theorem unique_keys_one_row_per_key p1 p2 w A B m u mp up w' :
  dataset "File 1" p1 w = Some A → dataset "File 2" p2 w = Some B →
  compare_excel_files p1 p2 w = (inr (Some (m, u, mp, up)), w') →
  unique_keys A → unique_keys B →
  length (rows m) + length (rows u) = length (key_universe A B).
Proof.
  intros HA HB Hrun HuA HuB.
  destruct (compare_excel_files_frames _ _ _ _ _ _ _ _ _ _ HA HB Hrun)
    as [Hm Hu].
  rewrite Hm, Hu, !length_fmap, <-length_app.
  rewrite (filter_app_complement (λ ix, indicator_of ix = both) (outer_join A B)).
  rewrite outer_join_length. unfold outer_join_cardinality.
  rewrite (sum_list_fmap_ext _ (λ _, 1)).
  - generalize (key_universe A B). intros l.
    induction l as [|x l IH]; csimpl; [done|]. by rewrite IH.
  - intros k Hk.
    pose proof (key_count_unique k A HuA). pose proof (key_count_unique k B HuB).
    assert (1 ≤ key_count k A + key_count k B) as Hone.
    { apply elem_of_remove_dups, list_elem_of_fmap in Hk as (r & -> & Hr).
      apply elem_of_app in Hr as [Hr|Hr].
      - pose proof (key_count_elem r A Hr). lia.
      - pose proof (key_count_elem r B Hr). lia. }
    unfold key_multiplicity.
    destruct (key_count k A) as [|[|?]], (key_count k B) as [|[|?]]; lia.
Qed.

Lemma unique_keys_one_row_per_key_witness :
  ∃ m u w',
    dataset "File 1" "uploads/a.xlsx" Scenario.uploads = Some Scenario.A ∧
    dataset "File 2" "uploads/b.xlsx" Scenario.uploads = Some Scenario.B ∧
    compare_excel_files "uploads/a.xlsx" "uploads/b.xlsx" Scenario.uploads
      = (inr (Some (m, u, matching_path, mismatching_path)), w') ∧
    unique_keys Scenario.A ∧ unique_keys Scenario.B ∧
    length (rows m) + length (rows u) = length (key_universe Scenario.A Scenario.B).
Proof.
  assert (unique_keys Scenario.A) as HuA
    by (apply (bool_decide_unpack _); scenario_value).
  assert (unique_keys Scenario.B) as HuB
    by (apply (bool_decide_unpack _); scenario_value).
  eexists _, _, _.
  split; [scenario_value|]. split; [scenario_value|].
  split; [scenario_run|].
  do 2 (split; [done|]).
  eapply (unique_keys_one_row_per_key
            "uploads/a.xlsx" "uploads/b.xlsx" Scenario.uploads
            Scenario.A Scenario.B);
    [scenario_value | scenario_value | scenario_run | exact HuA | exact HuB].
Defined.

(** The sign given to a rounding shows only in the sign of the result. *)
Lemma SFabs_binary_round_aux s s' m e l :
  SFabs (binary_round_aux 53 1024 s m e l)
  = SFabs (binary_round_aux 53 1024 s' m e l).
Proof.
  unfold binary_round_aux.
  destruct (shr_fexp 53 1024 m e l) as [mrs e1].
  destruct (shr_fexp 53 1024 _ e1 loc_Exact) as [mrs' e2].
  destruct (shr_m mrs'); [done| |done].
  by destruct (Z.leb _ _).
Qed.

Lemma SFabs_binary_normalize_opp z e :
  SFabs (binary_normalize 53 1024 (- z) e false)
  = SFabs (binary_normalize 53 1024 z e false).
Proof.
  destruct z as [|m|m]; [done|..]; unfold binary_normalize, binary_round; simpl;
    destruct (shl_align _ _ _); apply SFabs_binary_round_aux.
Qed.

(** [|x - y| = |y - x|] in binary64. *)
Lemma float64_abs_sub_comm x y :
  SFabs (float64_sub x y) = SFabs (float64_sub y x).
Proof.
  destruct x as [sx|sx| |sx mx ex], y as [sy|sy| |sy my ey];
    try done; try (by destruct sx, sy).
  unfold float64_sub, SFsub. rewrite (Z.min_comm ey ex).
  rewrite <-SFabs_binary_normalize_opp. f_equal. f_equal. lia.
Qed.

Lemma diff_cell_comm x y : diff_cell x y = diff_cell y x.
Proof.
  destruct x as [a|s], y as [b|t]; unfold diff_cell; try done.
  - by rewrite float64_abs_sub_comm.
  - by rewrite orb_comm.
  - by rewrite orb_comm.
Qed.

Lemma joins_swap A B ix : joins B A (swap_sides ix) ↔ joins A B ix.
Proof.
  destruct ix as [[i|] [j|]]; try done. simpl. unfold paired. split.
  - intros (b & a & ? & ? & ?). by exists a, b.
  - intros (a & b & ? & ? & ?). by exists b, a.
Qed.

Lemma swap_sides_involutive ix : swap_sides (swap_sides ix) = ix.
Proof. by destruct ix. Qed.

(** The join of the files in the other order lists the same pairs, sides
    exchanged. *)
Lemma outer_join_swap A B (P : indicator → Prop) `{∀ i, Decision (P i)} :
  (∀ ix, P (indicator_of (swap_sides ix)) ↔ P (indicator_of ix)) →
  filter (λ ix, P (indicator_of ix)) (outer_join B A)
    ≡ₚ swap_sides <$> filter (λ ix, P (indicator_of ix)) (outer_join A B).
Proof.
  intros HP. apply NoDup_Permutation.
  - apply NoDup_filter, outer_join_NoDup.
  - apply (NoDup_fmap_2_strong _); [|apply NoDup_filter, outer_join_NoDup].
    intros [x1 x2] [y1 y2] _ _ Hxy. unfold swap_sides in Hxy.
    by simplify_eq/=.
  - intros ix. rewrite list_elem_of_filter, outer_join_elem, list_elem_of_fmap.
    split.
    + intros [HPix Hj]. exists (swap_sides ix).
      split; [by rewrite swap_sides_involutive|].
      apply list_elem_of_filter. split; [by apply HP|].
      apply outer_join_elem. by apply (joins_swap B A).
    + intros (ix' & -> & [HPix Hj]%list_elem_of_filter).
      split; [by apply HP|]. by apply joins_swap, outer_join_elem.
Qed.

Lemma result_row_swap A B ix :
  joins A B ix →
  keyed (result_row B A (swap_sides ix)) = swapped (result_row A B ix).
Proof.
  destruct ix as [[i|] [j|]]; try done; unfold swap_sides; cbn [fst snd].
  - intros (a & b & Ha & Hb & Hk). unfold result_row.
    rewrite (merged_row_pair _ _ _ _ _ _ Hb Ha), (merged_row_pair _ _ _ _ _ _ Ha Hb).
    unfold keyed, swapped, with_diff;
      cbn [nth merged weight_diff awb_number weight_file1 weight_file2].
    by rewrite Hk, (diff_cell_comm (weight b)).
  - intros (a & Ha & _). unfold result_row.
    rewrite (merged_row_right B A i a Ha), (merged_row_left A B i a Ha).
    unfold keyed, swapped, with_diff;
      cbn [nth merged weight_diff awb_number weight_file1 weight_file2].
    by rewrite (diff_cell_comm NaN).
  - intros (b & Hb & _). unfold result_row.
    rewrite (merged_row_left B A j b Hb), (merged_row_right A B j b Hb).
    unfold keyed, swapped, with_diff;
      cbn [nth merged weight_diff awb_number weight_file1 weight_file2].
    by rewrite (diff_cell_comm NaN).
Qed.

Lemma dataset_label label label' path w A :
  dataset label path w = Some A → dataset label' path w = Some A.
Proof.
  unfold dataset, load, mbind, M_bind. rewrite read_excel_run.
  destruct (fs w !! OsPath.resolve path) as [[raw|?]|]; [|done..].
  rewrite !parse_run. by destruct (negb _ || negb _).
Qed.

Lemma frames_swap_aux A B (P : indicator → Prop) `{∀ i, Decision (P i)} :
  (∀ ix, P (indicator_of (swap_sides ix)) ↔ P (indicator_of ix)) →
  keyed <$> (result_row B A <$> filter (λ ix, P (indicator_of ix)) (outer_join B A))
    ≡ₚ swapped <$> (result_row A B
                      <$> filter (λ ix, P (indicator_of ix)) (outer_join A B)).
Proof.
  intros HP. rewrite (outer_join_swap A B P HP).
  rewrite <-!list_fmap_compose.
  erewrite Forall_fmap_ext_1; [done|].
  apply Forall_forall. intros ix [_ Hin]%list_elem_of_filter. simpl.
  by apply result_row_swap, outer_join_elem.
Qed.

(** X5. Comparing the two files in the other order gives the same rows
    with the two weight columns exchanged: the same keys are matched and
    unmatched, and every [weight_diff] is the same. *)
Theorem comparison_of_swapped_files
    p1 p2 w A B m u mp up w1 m' u' mp' up' w2 :
  dataset "File 1" p1 w = Some A → dataset "File 2" p2 w = Some B →
  compare_excel_files p1 p2 w = (inr (Some (m, u, mp, up)), w1) →
  compare_excel_files p2 p1 w = (inr (Some (m', u', mp', up')), w2) →
  keyed <$> rows m' ≡ₚ swapped <$> rows m ∧
  keyed <$> rows u' ≡ₚ swapped <$> rows u.
Proof.
  intros HA HB Hrun Hrun'.
  destruct (compare_excel_files_frames _ _ _ _ _ _ _ _ _ _ HA HB Hrun)
    as [Hm Hu].
  destruct (compare_excel_files_frames _ _ _ B A _ _ _ _ _
              (dataset_label _ "File 1" _ _ _ HB)
              (dataset_label _ "File 2" _ _ _ HA) Hrun') as [Hm' Hu'].
  rewrite Hm, Hu, Hm', Hu'. split.
  - apply (frames_swap_aux A B (λ i, i = both)
             (H := λ i, indicator_eq_dec i both)).
    by intros [[?|] [?|]].
  - apply (frames_swap_aux A B (λ i, i ≠ both)
             (H := λ i, not_dec (indicator_eq_dec i both))).
    by intros [[?|] [?|]].
Qed.

Lemma comparison_of_swapped_files_witness :
  ∃ m u w' m' u' w2,
    dataset "File 1" "uploads/a.xlsx" Scenario.uploads = Some Scenario.A ∧
    dataset "File 2" "uploads/b.xlsx" Scenario.uploads = Some Scenario.B ∧
    compare_excel_files "uploads/a.xlsx" "uploads/b.xlsx" Scenario.uploads
      = (inr (Some (m, u, matching_path, mismatching_path)), w') ∧
    compare_excel_files "uploads/b.xlsx" "uploads/a.xlsx" Scenario.uploads
      = (inr (Some (m', u', matching_path, mismatching_path)), w2) ∧
    keyed <$> rows m' ≡ₚ swapped <$> rows m ∧
    keyed <$> rows u' ≡ₚ swapped <$> rows u.
Proof.
  eexists _, _, _, _, _, _.
  split; [scenario_value|]. split; [scenario_value|].
  split; [scenario_run|].
  split; [scenario_run|].
  eapply (comparison_of_swapped_files
            "uploads/a.xlsx" "uploads/b.xlsx" Scenario.uploads
            Scenario.A Scenario.B);
    [scenario_value | scenario_value | scenario_run | scenario_run].
Defined.

End frames_more.

(** ** More on the comparison as a whole *)

Section operation_more.
Import Pandas Relational App Frames.

Lemma compare_excel_files_inr p1 p2 w :
  ∃ result w', compare_excel_files p1 p2 w = (inr result, w').
Proof.
  rewrite compare_excel_files_run.
  destruct (prepare p1 p2 w).1 as [e|[m u]]; [by eexists _, _|].
  destruct (decide (matching_path ∈ readonly w)); [by eexists _, _|].
  destruct (decide (mismatching_path ∈ readonly w)); by eexists _, _.
Qed.

(** X6. [compare_excel_files] never raises: whatever the two paths and
    the world, it returns; it leaves the unwritable paths as they are;
    and it prints exactly one line, the line of an error, when it returns
    the four [None], and nothing when it returns its result. *)
Theorem compare_excel_files_never_raises p1 p2 w :
  ∃ result w',
    compare_excel_files p1 p2 w = (inr result, w') ∧
    readonly w' = readonly w ∧
    match result with
    | Some _ => stdout w' = stdout w
    | None => ∃ e, stdout w' = stdout w ++ [error_line e]
    end.
Proof.
  rewrite compare_excel_files_run.
  destruct (prepare p1 p2 w).1 as [e|[m u]].
  { eexists _, _. split; [done|]. split; [done|]. by exists e. }
  destruct (decide (matching_path ∈ readonly w)).
  { eexists _, _. split; [done|]. split; [done|]. by eexists. }
  destruct (decide (mismatching_path ∈ readonly w)).
  { eexists _, _. split; [done|]. split; [done|]. by eexists. }
  eexists _, _. by split.
Qed.






(** A comparison that returns its result has parsed a dataset from
    either input. *)
Lemma compare_excel_files_Some_datasets p1 p2 w m u mp up w' :
  compare_excel_files p1 p2 w = (inr (Some (m, u, mp, up)), w') →
  ∃ A B, dataset "File 1" p1 w = Some A ∧ dataset "File 2" p2 w = Some B.
Proof.
  intros (Hp & _)%compare_excel_files_Some. revert Hp.
  unfold prepare, dataset, load, mbind, M_bind. rewrite !read_excel_run.
  destruct (fs w !! OsPath.resolve p1) as [[df1|?]|]; [|done..].
  destruct (fs w !! OsPath.resolve p2) as [[df2|?]|]; [|done..].
  rewrite !parse_run.
  destruct (negb (has_column "awb number" (normalize_columns df1)) || _);
    [done|].
  destruct (negb (has_column "awb number" (normalize_columns df2)) || _);
    [done|].
  rewrite reconcile_run. cbn [fst].
  destruct (records _) as [A|]; [|done].
  destruct (records _) as [B|]; [|done].
  intros _. by exists A, B.
Qed.

Lemma select_columns_labels df :
  columns (select_columns ["awb number"; "weight"] df) =
  ((λ _, "awb number"%string) <$> label_positions 0 "awb number" (columns df))
    ++ ((λ _, "weight"%string) <$> label_positions 0 "weight" (columns df)).
Proof.
  unfold select_columns. cbn [columns]. csimpl.
  rewrite fmap_app, app_nil_r, <-!list_fmap_compose. done.
Qed.

(** X9. When two columns of an input normalise to the key label
    ['awb number'], for instance ["AWB Number"] and ["awb number "], the
    input passes the column check but the comparison cannot return its
    result. *)
Theorem duplicated_key_label_fails p1 p2 w raw i1 i2 rest :
  (read_excel p1 w = (inr raw, w) ∨ read_excel p2 w = (inr raw, w)) →
  label_positions 0 "awb number" (columns (normalize_columns raw))
    = i1 :: i2 :: rest →
  has_column "awb number" (normalize_columns raw) = true ∧
  ∃ w', compare_excel_files p1 p2 w = (inr None, w').
Proof.
  intros Hread Hpos. split.
  { apply bool_decide_eq_true. apply (label_positions_elem 0 _ _ i1).
    rewrite Hpos. left. }
  assert (∀ label p, read_excel p w = (inr raw, w) → dataset label p w = None)
    as Hnone.
  { intros label p Hr. unfold dataset, load, mbind, M_bind. rewrite Hr, parse_run.
    destruct (negb _ || negb _); [done|]. cbn [fst].
    unfold records. rewrite select_columns_labels, Hpos.
    by rewrite decide_False. }
  destruct (compare_excel_files_inr p1 p2 w) as (r & w' & Hrun).
  destruct r as [[[[m u] mp] up]|]; [|by exists w'].
  destruct (compare_excel_files_Some_datasets _ _ _ _ _ _ _ _ Hrun)
    as (A & B & HA & HB).
  destruct Hread as [Hr|Hr].
  - by rewrite (Hnone _ _ Hr) in HA.
  - by rewrite (Hnone _ _ Hr) in HB.
Qed.

Lemma duplicated_key_label_fails_witness :
  read_excel "uploads/e.xlsx" Requests.relabelled
    = (inr Requests.twice, Requests.relabelled) ∧
  label_positions 0 "awb number" (columns (normalize_columns Requests.twice))
    = [0; 1] ∧
  has_column "awb number" (normalize_columns Requests.twice) = true ∧
  ∃ w', compare_excel_files "uploads/e.xlsx" "uploads/b.xlsx" Requests.relabelled
          = (inr None, w').
Proof.
  assert (read_excel "uploads/e.xlsx" Requests.relabelled
            = (inr Requests.twice, Requests.relabelled)) as Hr by scenario_run.
  assert (label_positions 0 "awb number"
            (columns (normalize_columns Requests.twice)) = [0; 1]) as Hpos
    by scenario_value.
  do 2 (split; [done|]).
  exact (duplicated_key_label_fails
           "uploads/e.xlsx" "uploads/b.xlsx" Requests.relabelled
           Requests.twice 0 1 [] (or_introl Hr) Hpos).
Defined.

End operation_more.

(** ** The upload view *)

Section upload_view.
Import Pandas Relational App Frames Views.

(** The view on a request that carries both fields: the two saves, then
    the comparison of the two saved paths. *)
Lemma compare_files_run req file1 file2 w :
  req !! "file1" = Some file1 → req !! "file2" = Some file2 →
  compare_files req w =
  if decide (upload_path (filename file1) ∈ readonly w)
  then (inl (OSError ("[Errno 13] Permission denied: '"
                        ++ OsPath.join UPLOAD_FOLDER (filename file1) ++ "'")%string),
        w)
  else if decide (upload_path (filename file2) ∈ readonly w)
  then (inl (OSError ("[Errno 13] Permission denied: '"
                        ++ OsPath.join UPLOAD_FOLDER (filename file2) ++ "'")%string),
        with_file (upload_path (filename file1)) (content file1) w)
  else
    match compare_excel_files
            (OsPath.join UPLOAD_FOLDER (filename file1))
            (OsPath.join UPLOAD_FOLDER (filename file2))
            (with_file (upload_path (filename file2)) (content file2)
               (with_file (upload_path (filename file1)) (content file1) w))
    with
    | (inr (Some (m, u, _, _)), w') =>
        (inr (ResultPage (select_columns shown_columns m)
                         (select_columns shown_columns u)), w')
    | (inr None, w') =>
        (inr (Plain "There was an error processing the files." 500), w')
    | (inl e, w') => (inl e, w')
    end.
Proof.
  intros H1 H2. unfold compare_files. rewrite H1, H2.
  unfold save, write_file, mbind, M_bind, upload_path.
  destruct (decide (_ ∈ readonly w)); [done|].
  cbn [readonly with_file].
  destruct (decide (_ ∈ readonly w)); [done|].
  destruct (compare_excel_files _ _ _) as [[e|[[[[m u] mp] up]|]] w']; done.
Qed.

Lemma shown_picked :
  (n ← shown_columns; (λ i, (n, i)) <$> label_positions 0 n shown_columns)
  = [("awb number"%string, 0); ("weight_file1"%string, 1);
     ("weight_file2"%string, 2); ("weight_diff"%string, 3)].
Proof. by vm_compute. Qed.

(** Selecting the shown columns of a frame that has exactly these
    columns changes nothing. *)
Lemma select_shown_id df :
  columns df = shown_columns →
  Forall (λ r, length r = 4) (rows df) →
  select_columns shown_columns df = df.
Proof.
  destruct df as [cols rws]. cbn [columns rows]. intros -> Hrows.
  unfold select_columns. cbn [columns rows]. rewrite shown_picked.
  f_equal. rewrite <-(list_fmap_id rws) at 2.
  apply Forall_fmap_ext_1. eapply Forall_impl; [exact Hrows|].
  intros [|a [|b [|c [|d [|? ?]]]]] Hlen; try done.
Qed.

Lemma frames_of_comparison p1 p2 w m u mp up w' :
  compare_excel_files p1 p2 w = (inr (Some (m, u, mp, up)), w') →
  ∃ A B, dataset "File 1" p1 w = Some A ∧ dataset "File 2" p2 w = Some B ∧
    m = mkDataFrame shown_columns
          (result_row A B
             <$> filter (λ ix, indicator_of ix = both) (outer_join A B)) ∧
    u = mkDataFrame shown_columns
          (result_row A B
             <$> filter (λ ix, indicator_of ix ≠ both) (outer_join A B)).
Proof.
  intros Hrun.
  destruct (compare_excel_files_Some_datasets _ _ _ _ _ _ _ _ Hrun)
    as (A & B & HA & HB).
  exists A, B. do 2 (split; [done|]).
  apply compare_excel_files_Some in Hrun as (Hp & _).
  rewrite (prepare_datasets _ _ _ A B) in Hp by done.
  destruct (incompatible_keys _ _); [done|].
  destruct (mapM abs_diff _ w) as [[e|k] w''] eqn:E; [done|].
  apply mapM_abs_diff_inr in E as (_ & -> & _).
  cbn [fst] in Hp. injection Hp as <- <-.
  unfold drop_merge.
  by rewrite !filter_fmap_comm, <-!list_fmap_compose.
Qed.

Lemma frames_select_id p1 p2 w m u mp up w' :
  compare_excel_files p1 p2 w = (inr (Some (m, u, mp, up)), w') →
  select_columns shown_columns m = m ∧ select_columns shown_columns u = u.
Proof.
  intros (A & B & _ & _ & -> & ->)%frames_of_comparison.
  split; (apply select_shown_id; [done|]); cbn [rows];
    apply Forall_fmap, Forall_forall; by intros ??.
Qed.

(** A comparison changes no file but the two artifacts. *)
Lemma compare_excel_files_fs_other p1 p2 w key :
  key ≠ matching_path → key ≠ mismatching_path →
  fs (compare_excel_files p1 p2 w).2 !! key = fs w !! key.
Proof.
  intros H1 H2. rewrite compare_excel_files_run.
  destruct (prepare p1 p2 w).1 as [e|[m u]]; [done|].
  destruct (decide (matching_path ∈ readonly w)); [done|].
  destruct (decide (mismatching_path ∈ readonly w)); cbn [snd fs with_line with_file].
  - by rewrite lookup_insert_ne.
  - by rewrite !lookup_insert_ne.
Qed.

(** Every pair of the join of a dataset with itself has both sides. *)
Lemma outer_join_self A :
  filter (λ ix, indicator_of ix ≠ both) (outer_join A A) = [].
Proof.
  destruct (filter _ _) as [|ix l] eqn:E; [done|]. exfalso.
  assert (ix ∈ filter (λ ix, indicator_of ix ≠ both) (outer_join A A)) as Hin
    by (rewrite E; left).
  apply list_elem_of_filter in Hin as [Hnb Hin].
  apply outer_join_elem in Hin. destruct ix as [[i|] [j|]]; try done.
  - destruct Hin as (a & Ha & Hn). apply (Hn a); [|done].
    by eapply list_elem_of_lookup_2.
  - destruct Hin as (a & Ha & Hn). apply (Hn a); [|done].
    by eapply list_elem_of_lookup_2.
Qed.

Lemma dataset_of_workbook label path w raw A :
  fs w !! OsPath.resolve path = Some (Workbook raw) →
  dataset label path w = Some A →
  records (select_columns ["awb number"; "weight"] (normalize_columns raw))
    = Some A.
Proof.
  intros Hfs. unfold dataset, load, mbind, M_bind.
  rewrite read_excel_run, Hfs, parse_run.
  by destruct (negb _ || negb _).
Qed.

Lemma dataset_is_workbook label path w A :
  dataset label path w = Some A →
  ∃ raw, fs w !! OsPath.resolve path = Some (Workbook raw).
Proof.
  unfold dataset, load, mbind, M_bind. rewrite read_excel_run.
  destruct (fs w !! OsPath.resolve path) as [[raw|?]|]; [|done..].
  intros _. by exists raw.
Qed.



(** X11. When the two uploads carry one name, the second is saved over
    the first and compared with itself: whatever the first upload held,
    the table of mismatching rows of the result page is empty and the
    table of matching rows is built, up to the order of its rows, from the
    second upload alone. *)
Theorem same_name_compares_second_upload_with_itself
    req file1 file2 w mh uh w' :
  req !! "file1" = Some file1 → req !! "file2" = Some file2 →
  filename file1 = filename file2 →
  compare_files req w = (inr (ResultPage mh uh), w') →
  rows uh = [] ∧
  ∃ raw2 A,
    content file2 = Workbook raw2 ∧
    records (select_columns ["awb number"; "weight"] (normalize_columns raw2))
      = Some A ∧
    rows mh ≡ₚ result_row A A
                 <$> filter (λ ix, indicator_of ix = both) (outer_join A A).
Proof.
  intros H1 H2 Hname. rewrite (compare_files_run _ _ _ _ H1 H2), Hname.
  destruct (decide (_ ∈ readonly w)); [done|].
  destruct (compare_excel_files _ _ _) as [[e|[[[[m u] mp] up]|]] w''] eqn:Hrun;
    [done| |done].
  intros [= <- <- <-].
  destruct (frames_select_id _ _ _ _ _ _ _ _ Hrun) as [-> ->].
  destruct (frames_of_comparison _ _ _ _ _ _ _ _ Hrun)
    as (A & B & HA & HB & -> & ->).
  apply (dataset_label _ "File 1") in HB. rewrite HA in HB.
  injection HB as <-. cbn [rows]. rewrite outer_join_self.
  split; [done|].
  destruct (dataset_is_workbook _ _ _ _ HA) as [raw Hraw].
  pose proof (dataset_of_workbook _ _ _ _ _ Hraw HA) as Hrec.
  cbn [fs with_file] in Hraw. fold (upload_path (filename file2)) in Hraw.
  rewrite lookup_insert_eq in Hraw. injection Hraw as Hraw.
  by exists raw, A.
Qed.

Lemma same_name_compares_second_upload_with_itself_witness :
  ∃ mh uh w',
    Requests.form Requests.first Requests.second_as_first !! "file1" = Some Requests.first ∧
    Requests.form Requests.first Requests.second_as_first !! "file2" = Some Requests.second_as_first ∧
    filename Requests.first = filename Requests.second_as_first ∧
    compare_files (Requests.form Requests.first Requests.second_as_first)
                  Requests.empty_disk
      = (inr (ResultPage mh uh), w') ∧
    rows uh = [] ∧
    ∃ raw2 A,
      content Requests.second_as_first = Workbook raw2 ∧
      records (select_columns ["awb number"; "weight"] (normalize_columns raw2))
        = Some A ∧
      rows mh ≡ₚ result_row A A
                   <$> filter (λ ix, indicator_of ix = both) (outer_join A A).
Proof.
  eexists _, _, _.
  split; [scenario_value|]. split; [scenario_value|].
  split; [reflexivity|]. split; [scenario_run|].
  eapply (same_name_compares_second_upload_with_itself
            (Requests.form Requests.first Requests.second_as_first)
            Requests.first Requests.second_as_first Requests.empty_disk);
    [scenario_value | scenario_value | reflexivity | scenario_run].
Defined.

(** X12. When the path of an upload cannot be written, for instance
    because the upload has no name, so that the path is the upload folder
    itself, an [OSError] leaves the view: no comparison runs, nothing is
    printed, and when it is the first save that fails nothing is
    written. *)
Theorem unwritable_upload_path_raises req file1 file2 w :
  req !! "file1" = Some file1 → req !! "file2" = Some file2 →
  upload_path (filename file1) ∈ readonly w
    ∨ upload_path (filename file2) ∈ readonly w →
  ∃ msg w',
    compare_files req w = (inl (OSError msg), w') ∧
    stdout w' = stdout w ∧
    (upload_path (filename file1) ∈ readonly w → w' = w).
Proof.
  intros H1 H2 Hro. rewrite (compare_files_run _ _ _ _ H1 H2).
  destruct (decide (upload_path (filename file1) ∈ readonly w)) as [Hr1|Hr1].
  { by eexists _, _. }
  destruct Hro as [?|Hr2]; [done|]. rewrite decide_True by done.
  by eexists _, _.
Qed.

Lemma unwritable_upload_path_raises_witness :
  Requests.form Requests.unnamed Requests.second !! "file1" = Some Requests.unnamed ∧
  Requests.form Requests.unnamed Requests.second !! "file2" = Some Requests.second ∧
  upload_path (filename Requests.unnamed) = "uploads" ∧
  (upload_path (filename Requests.unnamed) ∈ readonly Requests.folder_locked
     ∨ upload_path (filename Requests.second) ∈ readonly Requests.folder_locked) ∧
  ∃ msg w',
    compare_files (Requests.form Requests.unnamed Requests.second)
                  Requests.folder_locked
      = (inl (OSError msg), w') ∧
    stdout w' = stdout Requests.folder_locked ∧
    (upload_path (filename Requests.unnamed) ∈ readonly Requests.folder_locked →
     w' = Requests.folder_locked).
Proof.
  assert (Requests.form Requests.unnamed Requests.second !! "file1"
            = Some Requests.unnamed) as H1 by scenario_value.
  assert (Requests.form Requests.unnamed Requests.second !! "file2"
            = Some Requests.second) as H2 by scenario_value.
  assert (upload_path (filename Requests.unnamed) = "uploads") as Hp
    by scenario_value.
  assert (upload_path (filename Requests.unnamed)
            ∈ readonly Requests.folder_locked) as Hro
    by (rewrite Hp; unfold Requests.folder_locked; cbn [readonly];
        by apply elem_of_singleton).
  do 3 (split; [done|]). split; [by left|].
  exact (unwritable_upload_path_raises
           (Requests.form Requests.unnamed Requests.second)
           Requests.unnamed Requests.second Requests.folder_locked
           H1 H2 (or_introl Hro)).
Defined.



(** X14. After a request answered with the result page, the two
    download links of the page serve workbooks that hold exactly the two
    tables the page shows. *)
Theorem result_page_matches_downloads req w mh uh w' :
  compare_files req w = (inr (ResultPage mh uh), w') →
  respond (download_file "matching_awb_numbers.xlsx") w'
    = Attachment (Workbook mh) ∧
  respond (download_file "mismatching_awb_numbers.xlsx") w'
    = Attachment (Workbook uh).
Proof.
  destruct (req !! "file1") as [file1|] eqn:H1;
    [|by unfold compare_files; rewrite H1].
  destruct (req !! "file2") as [file2|] eqn:H2;
    [|by unfold compare_files; rewrite H1, H2].
  rewrite (compare_files_run _ _ _ _ H1 H2).
  destruct (decide (_ ∈ readonly w)); [done|].
  destruct (decide (_ ∈ readonly w)); [done|].
  destruct (compare_excel_files _ _ _) as [[e|[[[[m u] mp] up]|]] w''] eqn:Hrun;
    [done| |done].
  intros [= <- <- <-].
  destruct (frames_select_id _ _ _ _ _ _ _ _ Hrun) as [-> ->].
  apply compare_excel_files_Some in Hrun as (_ & _ & _ & _ & _ & ->).
  assert (mismatching_path ≠ matching_path) as Hne by (by vm_compute).
  unfold respond.
  rewrite !download_file_run, matching_path_resolve, mismatching_path_resolve.
  cbn [fs with_file].
  by rewrite lookup_insert_eq, lookup_insert_ne, lookup_insert_eq.
Qed.

Lemma result_page_matches_downloads_witness :
  ∃ mh uh w',
    compare_files (Requests.form Requests.first Requests.second) Requests.empty_disk
      = (inr (ResultPage mh uh), w') ∧
    respond (download_file "matching_awb_numbers.xlsx") w'
      = Attachment (Workbook mh) ∧
    respond (download_file "mismatching_awb_numbers.xlsx") w'
      = Attachment (Workbook uh).
Proof.
  eexists _, _, _. split; [scenario_run|].
  eapply (result_page_matches_downloads
            (Requests.form Requests.first Requests.second) Requests.empty_disk);
    scenario_run.
Defined.

(** X15. The view answers with status 400 exactly when the request lacks
    one of the two fields, and then nothing is saved, compared or
    printed. *)
Theorem status_400_iff_field_missing req w :
  (req !! "file1" = None ∨ req !! "file2" = None →
   compare_files req w = (inr (Plain "Please upload both files." 400), w)) ∧
  (∀ body w', compare_files req w = (inr (Plain body 400), w') →
              req !! "file1" = None ∨ req !! "file2" = None).
Proof.
  split.
  - intros [H|H]; unfold compare_files; rewrite H; [done|].
    by destruct (req !! "file1").
  - intros body w'.
    destruct (req !! "file1") as [file1|] eqn:H1; [|by left].
    destruct (req !! "file2") as [file2|] eqn:H2; [|by right].
    rewrite (compare_files_run _ _ _ _ H1 H2).
    destruct (decide (_ ∈ readonly w)); [done|].
    destruct (decide (_ ∈ readonly w)); [done|].
    by destruct (compare_excel_files _ _ _) as [[e|[[[[m u] mp] up]|]] w''].
Qed.

Lemma split_go_slash_free cur s :
  slash_free s = true → Str.split_go "/" cur s = [String.rev_app cur s].
Proof.
  revert cur. induction s as [|c s IH]; intros cur Hs; [done|].
  simpl in Hs. apply andb_prop in Hs as [Hc Hs].
  apply negb_true_iff in Hc. cbn [Str.split_go]. by rewrite Hc, (IH _ Hs).
Qed.

Lemma slash_free_relative s :
  slash_free s = true → Str.startswith s "/" = false.
Proof.
  destruct s as [|c s]; [done|]. intros Hs. cbn [slash_free] in Hs.
  apply andb_prop in Hs as [Hc _].
  apply negb_true_iff, Ascii.eqb_neq in Hc.
  unfold Str.startswith. cbn -[ascii_dec].
  destruct (ascii_dec "/" c) as [E|_]; [by destruct Hc|done].
Qed.

(** An upload with a plain name is saved under that name in the upload
    folder. *)
Lemma upload_path_plain name :
  plain_name name = true → upload_path name = ("uploads/" ++ name)%string.
Proof.
  unfold plain_name. intros Hp.
  apply andb_prop in Hp as [Hp H3]. apply andb_prop in Hp as [Hp H2].
  apply andb_prop in Hp as [Hs H1].
  apply negb_true_iff in H1, H2, H3.
  unfold upload_path, OsPath.join. rewrite (slash_free_relative _ Hs).
  change (String.eqb UPLOAD_FOLDER "" || Str.endswith UPLOAD_FOLDER "/")
    with false. cbv iota.
  change (UPLOAD_FOLDER ++ "/" ++ name)%string with ("uploads/" ++ name)%string.
  unfold OsPath.resolve.
  change (Str.startswith ("uploads/" ++ name) "/") with false. cbv iota.
  change (Str.split "/" ("uploads/" ++ name))
    with ("uploads"%string :: Str.split_go "/" "" name).
  rewrite (split_go_slash_free _ _ Hs).
  change (String.rev_app "" name) with name.
  cbn [OsPath.resolve_go].
  change (String.eqb "uploads" "" || String.eqb "uploads" ".") with false.
  change (String.eqb "uploads" "..") with false. cbv iota.
  rewrite H1, H2, H3. done.
Qed.

(** X16. The view never removes an upload: when both uploads carry a
    plain name and the view returns, with the result page or with the
    error text, the second upload is on disk under its name in the upload
    folder, and so is the first unless the second carried the same
    name. *)
Theorem uploads_stay_on_disk req file1 file2 w r w' :
  req !! "file1" = Some file1 → req !! "file2" = Some file2 →
  plain_name (filename file1) = true → plain_name (filename file2) = true →
  compare_files req w = (inr r, w') →
  fs w' !! ("uploads/" ++ filename file2)%string = Some (content file2) ∧
  (filename file1 ≠ filename file2 →
   fs w' !! ("uploads/" ++ filename file1)%string = Some (content file1)).
Proof.
  intros H1 H2 Hp1 Hp2.
  rewrite (compare_files_run _ _ _ _ H1 H2).
  rewrite (upload_path_plain _ Hp1), (upload_path_plain _ Hp2).
  destruct (decide (_ ∈ readonly w)); [done|].
  destruct (decide (_ ∈ readonly w)); [done|].
  intros Hrun.
  assert (w' = (compare_excel_files
                  (OsPath.join UPLOAD_FOLDER (filename file1))
                  (OsPath.join UPLOAD_FOLDER (filename file2))
                  (with_file ("uploads/" ++ filename file2) (content file2)
                     (with_file ("uploads/" ++ filename file1) (content file1) w))).2)
    as ->.
  { destruct (compare_excel_files _ _ _) as [[e|[[[[m u] mp] up]|]] w''];
      by simplify_eq. }
  assert (∀ name, ("uploads/" ++ name)%string ≠ matching_path
                  ∧ ("uploads/" ++ name)%string ≠ mismatching_path) as Hother
    by (by intros name; split).
  split; [|intros Hne];
    rewrite compare_excel_files_fs_other by apply Hother;
    cbn [fs with_file].
  - by rewrite lookup_insert_eq.
  - rewrite lookup_insert_ne, lookup_insert_eq; [done|].
    intros Heq. apply Hne. by simplify_eq/=.
Qed.

Lemma uploads_stay_on_disk_witness :
  ∃ r w',
    Requests.form Requests.first Requests.second !! "file1" = Some Requests.first ∧
    Requests.form Requests.first Requests.second !! "file2" = Some Requests.second ∧
    plain_name (filename Requests.first) = true ∧
    plain_name (filename Requests.second) = true ∧
    compare_files (Requests.form Requests.first Requests.second) Requests.empty_disk
      = (inr r, w') ∧
    fs w' !! ("uploads/" ++ filename Requests.second)%string
      = Some (content Requests.second) ∧
    (filename Requests.first ≠ filename Requests.second →
     fs w' !! ("uploads/" ++ filename Requests.first)%string
       = Some (content Requests.first)).
Proof.
  eexists _, _.
  split; [scenario_value|]. split; [scenario_value|].
  split; [scenario_value|]. split; [scenario_value|].
  split; [scenario_run|].
  eapply (uploads_stay_on_disk
            (Requests.form Requests.first Requests.second)
            Requests.first Requests.second Requests.empty_disk);
    [scenario_value | scenario_value | scenario_value | scenario_value
    | scenario_run].
Defined.

End upload_view.

(** ** What the comparison depends on *)

Section inputs_only.
Import Pandas Relational App.

Lemma mapM_abs_diff_pure l w1 w2 :
  (mapM abs_diff l w1).1 = (mapM abs_diff l w2).1.
Proof.
  induction l as [|r l IH]; [done|].
  rewrite !mapM_cons_run, !abs_diff_run.
  destruct (diff_cell _ _); [done|].
  destruct (mapM abs_diff l w1) as [[e1|k1] w1'],
           (mapM abs_diff l w2) as [[e2|k2] w2']; simpl in IH; by simplify_eq.
Qed.

Lemma prepare_inputs_only p1 p2 w1 w2 :
  fs w1 !! OsPath.resolve p1 = fs w2 !! OsPath.resolve p1 →
  fs w1 !! OsPath.resolve p2 = fs w2 !! OsPath.resolve p2 →
  (prepare p1 p2 w1).1 = (prepare p1 p2 w2).1.
Proof.
  intros E1 E2. unfold prepare, mbind, M_bind.
  rewrite !read_excel_run, E1, E2.
  destruct (fs w2 !! OsPath.resolve p1) as [[df1|?]|]; [|done..].
  destruct (fs w2 !! OsPath.resolve p2) as [[df2|?]|]; [|done..].
  rewrite !parse_run.
  destruct (negb (has_column "awb number" (normalize_columns df1)) || _);
    [done|].
  destruct (negb (has_column "awb number" (normalize_columns df2)) || _);
    [done|].
  rewrite !reconcile_run. cbn [fst].
  destruct (records _) as [A|]; [|done].
  destruct (records _) as [B|]; [|done].
  by rewrite (mapM_abs_diff_pure _ w1 w2).
Qed.

(** X17. What [compare_excel_files] returns depends on the world only
    through the files at its two paths and through the paths that cannot
    be written: in two worlds that agree on these it returns the same
    value, so neither the other uploads, nor the artifacts of an earlier
    comparison, nor what has been printed play a part. *)
Theorem comparison_depends_on_inputs_only p1 p2 w1 w2 :
  fs w1 !! OsPath.resolve p1 = fs w2 !! OsPath.resolve p1 →
  fs w1 !! OsPath.resolve p2 = fs w2 !! OsPath.resolve p2 →
  readonly w1 = readonly w2 →
  (compare_excel_files p1 p2 w1).1 = (compare_excel_files p1 p2 w2).1.
Proof.
  intros E1 E2 Hro. rewrite !compare_excel_files_run.
  rewrite (prepare_inputs_only _ _ _ _ E1 E2), Hro.
  destruct (prepare p1 p2 w2).1 as [e|[m u]]; [done|].
  destruct (decide (matching_path ∈ readonly w2)); [done|].
  by destruct (decide (mismatching_path ∈ readonly w2)).
Qed.

Lemma comparison_depends_on_inputs_only_witness :
  fs Scenario.uploads !! OsPath.resolve "uploads/a.xlsx"
    = fs Requests.busier !! OsPath.resolve "uploads/a.xlsx" ∧
  fs Scenario.uploads !! OsPath.resolve "uploads/b.xlsx"
    = fs Requests.busier !! OsPath.resolve "uploads/b.xlsx" ∧
  readonly Scenario.uploads = readonly Requests.busier ∧
  (compare_excel_files "uploads/a.xlsx" "uploads/b.xlsx" Scenario.uploads).1
    = (compare_excel_files "uploads/a.xlsx" "uploads/b.xlsx" Requests.busier).1.
Proof.
  assert (fs Scenario.uploads !! OsPath.resolve "uploads/a.xlsx"
            = fs Requests.busier !! OsPath.resolve "uploads/a.xlsx") as E1
    by scenario_value.
  assert (fs Scenario.uploads !! OsPath.resolve "uploads/b.xlsx"
            = fs Requests.busier !! OsPath.resolve "uploads/b.xlsx") as E2
    by scenario_value.
  do 2 (split; [done|]). split; [reflexivity|].
  exact (comparison_depends_on_inputs_only
           "uploads/a.xlsx" "uploads/b.xlsx" Scenario.uploads Requests.busier
           E1 E2 eq_refl).
Defined.

End inputs_only.

(** ** The kinds of the two key columns *)

Section key_kinds.
Import Pandas Relational App.







End key_kinds.
